(** * Reddit persona analyzer: the persona engine and its report renderer

    A shallow embedding of [generatePersona] and [formatPersonaAsText]
    (the Express server of the repository) and the properties of the
    written design that can be stated over them.

    Conventions of the embedding.
    - A JavaScript string is a [string]: one [ascii] per UTF-16 code unit,
      for the code units U+0000..U+00FF.  [length], [substring] and
      [includes] count code units, as in the source.
    - A field of a raw Reddit record is a [jsopt]: it may be missing
      ([undefined]), [null], or hold a value.
    - Lengths, counters and confidences are [nat]; the vote score and the
      average score are IEEE-754 doubles ([float]), as every JavaScript
      number is.
    - A [throw] is the [Throws] outcome of the [Outcome] monad.
    - The ambient clock read by the renderer is an explicit argument. *)

From Stdlib Require Import String Ascii List Arith PeanoNat NArith ZArith.
From Stdlib Require Import Bool Lia Floats Sorted Permutation DecimalString.
Import ListNotations.

Open Scope string_scope.
Open Scope list_scope.
Open Scope nat_scope.

(* ================================================================== *)
(** ** JavaScript values and built-ins used by the server               *)
(* ================================================================== *)

(** A property that may be absent, null, or present. *)
Inductive jsopt (A : Type) : Type :=
| undefined
| null
| val (a : A).
Arguments undefined {A}.
Arguments null {A}.
Arguments val {A} a.

Inductive JsError : Type :=
| TypeError.

(** The result of running a function that may throw. *)
Inductive Outcome (A : Type) : Type :=
| Returns (a : A)
| Throws (e : JsError).
Arguments Returns {A} a.
Arguments Throws {A} e.

Definition bind {A B : Type} (m : Outcome A) (k : A -> Outcome B) : Outcome B :=
  match m with
  | Returns a => k a
  | Throws e => Throws e
  end.

Notation "x <- m ;; k" := (bind m (fun x => k))
  (at level 61, m at next level, right associativity).

(** [Array.prototype.some] with a callback that may throw: it stops at the
    first [true] and at the first exception; on the empty array the callback
    is never called. *)
Fixpoint someM {A : Type} (p : A -> Outcome bool) (l : list A) : Outcome bool :=
  match l with
  | [] => Returns false
  | x :: l' => b <- p x ;; if b then Returns true else someM p l'
  end.

(** [Array.prototype.filter] with a callback that may throw. *)
Fixpoint filterM {A : Type} (p : A -> Outcome bool) (l : list A) : Outcome (list A) :=
  match l with
  | [] => Returns []
  | x :: l' =>
      b <- p x ;;
      rest <- filterM p l' ;;
      Returns (if b then x :: rest else rest)
  end.

(** *** Strings *)

Definition nl : string := String (ascii_of_nat 10) EmptyString.

(** [String.prototype.toLowerCase] on one code unit of U+0000..U+00FF:
    A-Z and the Latin-1 capitals U+00C0..U+00DE (U+00D7, the multiplication
    sign, apart) move up by 32; every other unit is its own lower case. *)
Definition lowerUnit (c : ascii) : ascii :=
  let n := nat_of_ascii c in
  if ((65 <=? n) && (n <=? 90))
     || ((192 <=? n) && (n <=? 222) && negb (n =? 215))
  then ascii_of_nat (n + 32)
  else c.

Fixpoint toLowerCase (s : string) : string :=
  match s with
  | EmptyString => EmptyString
  | String c s' => String (lowerUnit c) (toLowerCase s')
  end.

(** [s.includes(kw)]: [kw] occurs in [s] as a contiguous run of units. *)
Fixpoint includes (s kw : string) : bool :=
  prefix kw s
  || match s with
     | EmptyString => false
     | String _ s' => includes s' kw
     end.

(** ['c'.repeat(n)]. *)
Fixpoint repeatString (s : string) (n : nat) : string :=
  match n with
  | 0 => EmptyString
  | S n' => s ++ repeatString s n'
  end.

(** [Array.prototype.join]. *)
Fixpoint join (sep : string) (l : list string) : string :=
  match l with
  | [] => EmptyString
  | [x] => x
  | x :: l' => x ++ sep ++ join sep l'
  end.

(** A non-negative integer in a template literal. *)
Definition natToString (n : nat) : string :=
  NilEmpty.string_of_uint (Nat.to_uint n).

(** A string-valued field in a template literal. *)
Definition fieldToString (f : jsopt string) : string :=
  match f with
  | undefined => "undefined"
  | null => "null"
  | val s => s
  end.

(** [a || b] on string fields keeps [a] when it is truthy: present and not
    the empty string. *)
Definition truthyField (f : jsopt string) : bool :=
  match f with
  | val (String _ _) => true
  | _ => false
  end.

(** *** Numbers *)

(** [x || 0] on a number field: missing, null, NaN and both zeros give 0. *)
Definition numberOrZero (f : jsopt float) : float :=
  match f with
  | val x => if PrimFloat.eqb x 0 || negb (PrimFloat.eqb x x) then 0%float else x
  | _ => 0%float
  end.

(** An integer as a double (exact below 2^53 in magnitude). *)
Definition floatOfZ (z : Z) : float :=
  match z with
  | Z0 => 0%float
  | Zpos _ => PrimFloat.of_uint63 (Uint63.of_Z z)
  | Zneg p => PrimFloat.opp (PrimFloat.of_uint63 (Uint63.of_Z (Zpos p)))
  end.

Definition floatOfNat (n : nat) : float := floatOfZ (Z.of_nat n).

(** [Math.round]: the integer nearest to the double [x], a tie going
    towards +infinity; NaN, the infinities, the zeros and the doubles that
    are integers already are returned as they are, and a result of zero
    keeps the sign of [x]. *)
Definition Math_round (x : float) : float :=
  match Prim2SF x with
  | S754_finite s m e =>
      if (0 <=? e)%Z then x
      else
        let d := (2 ^ (- e))%Z in
        let num := if s then Z.neg m else Z.pos m in
        let n := ((2 * num + d) / (2 * d))%Z in
        if (n =? 0)%Z
        then (if s then (-0)%float else 0%float)
        else floatOfZ n
  | _ => x
  end.

(** *** [Number::toString]

    The text of a double in a template literal (ECMA-262, Number::toString
    with radix 10): the shortest decimal [s * 10^(n-k)], [s] of [k] digits,
    that reads back as the same double, the nearest one if there are
    several; written without exponent when [-6 < n <= 21]. *)
Section NumberToString.

Local Open Scope string_scope.
Local Open Scope Z_scope.

Definition decimalOfZ (z : Z) : string :=
  NilEmpty.string_of_uint (N.to_uint (Z.to_N z)).

(** [r * 2^e >= 10^g] *)
Definition atLeastPowerOfTen (r e g : Z) : bool :=
  10 ^ Z.max g 0 * 2 ^ Z.max (- e) 0 <=? r * 2 ^ Z.max e 0 * 10 ^ Z.max (- g) 0.

(** From an estimate [g] not above it, the [n] with
    [10^(n-1) <= r * 2^e < 10^n]. *)
Fixpoint decimalExponent (fuel : nat) (r e g : Z) : Z :=
  match fuel with
  | O => g
  | S fuel' =>
      if atLeastPowerOfTen r e g then decimalExponent fuel' r e (g + 1) else g
  end.

(** The digits [s] and the exponent [n] for the double [m * 2^e], trying
    [k], [k + 1], ... digits.  A decimal reads back as the double when it
    lies between the midpoints to the two neighbouring doubles (the
    midpoints included when [m] is even). *)
Fixpoint shortestDigits (fuel : nat) (m e n0 k : Z) : Z * Z :=
  let rv := 4 * m in
  let rh := 4 * m + 2 in
  let rl := if (m =? 2 ^ 52) && (-1074 <? e) then 4 * m - 1 else 4 * m - 2 in
  let e2 := e - 2 in
  let p := n0 - k in
  let unit := 10 ^ Z.max (- p) 0 * 2 ^ Z.max e2 0 in
  let scale := 10 ^ Z.max p 0 * 2 ^ Z.max (- e2) 0 in
  let lo := (rv * unit) / scale in
  let hi := lo + 1 in
  let inside s :=
    if Z.even m
    then (rl * unit <=? s * scale) && (s * scale <=? rh * unit)
    else (rl * unit <? s * scale) && (s * scale <? rh * unit) in
  let distance s := Z.abs (s * scale - rv * unit) in
  let pickHi := if hi =? 10 ^ k then (10 ^ (k - 1), n0 + 1) else (hi, n0) in
  match fuel with
  | O => (lo, n0)
  | S fuel' =>
      match inside lo, inside hi with
      | true, true =>
          if distance lo <? distance hi then (lo, n0)
          else if distance hi <? distance lo then pickHi
          else if Z.even lo then (lo, n0) else pickHi
      | true, false => (lo, n0)
      | false, true => pickHi
      | false, false => shortestDigits fuel' m e n0 (k + 1)
      end
  end.

Definition formatDecimal (digits : string) (n : Z) : string :=
  let k := Z.of_nat (String.length digits) in
  if (k <=? n) && (n <=? 21) then
    digits ++ repeatString "0" (Z.to_nat (n - k))
  else if (0 <? n) && (n <=? 21) then
    substring 0 (Z.to_nat n) digits ++ "."
    ++ substring (Z.to_nat n) (Z.to_nat (k - n)) digits
  else if (-6 <? n) && (n <=? 0) then
    "0." ++ repeatString "0" (Z.to_nat (- n)) ++ digits
  else
    let mantissa :=
      if k =? 1 then digits
      else substring 0 1 digits ++ "." ++ substring 1 (Z.to_nat (k - 1)) digits in
    mantissa ++ "e" ++ (if 0 <=? n - 1 then "+" else "-")
    ++ decimalOfZ (Z.abs (n - 1)).

Definition Number_toString (x : float) : string :=
  match Prim2SF x with
  | S754_nan => "NaN"
  | S754_zero _ => "0"
  | S754_infinity s => if s then "-Infinity" else "Infinity"
  | S754_finite s m e =>
      let m := Z.pos m in
      let n0 := decimalExponent 8 m e ((Z.log2 m + e) * 30103 / 100000 - 1) in
      let '(digits, n) := shortestDigits 17 m e n0 1 in
      (if s then "-" else "") ++ formatDecimal (decimalOfZ digits) n
  end.

End NumberToString.

(** *** Plain objects used as counters

    [subredditCounts] starts as [{}] and is only touched through
    [subredditCounts[k] = (subredditCounts[k] || 0) + 1].  Its own
    properties are kept in creation order.  A stored value is a number, or
    the string that [+ 1] produces when the lookup found an inherited
    member of [Object.prototype]. *)

Inductive Counter : Type :=
| Num (n : nat)
| Str (s : string).

Definition JsObject : Type := list (string * Counter).

(** The property key of a subscript expression. *)
Definition toPropertyKey (f : jsopt string) : string := fieldToString f.

(** The members every plain object inherits from [Object.prototype]. *)
Definition objectPrototypeKeys : list string :=
  [ "constructor"; "hasOwnProperty"; "isPrototypeOf"; "propertyIsEnumerable";
    "toLocaleString"; "toString"; "valueOf"; "__defineGetter__";
    "__defineSetter__"; "__lookupGetter__"; "__lookupSetter__"; "__proto__" ].

(** What [String(v)] gives for the inherited member [k] (the text Node.js
    prints for a built-in function, and for [Object.prototype] itself under
    [__proto__]). *)
Definition inheritedText (k : string) : string :=
  if (k =? "__proto__")%string then "[object Object]"
  else if (k =? "constructor")%string then "function Object() { [native code] }"
  else "function " ++ k ++ "() { [native code] }".

(** The value of the own property [k], if there is one. *)
Fixpoint getOwn (obj : JsObject) (k : string) : option Counter :=
  match obj with
  | [] => None
  | (k', v) :: obj' => if (k' =? k)%string then Some v else getOwn obj' k
  end.

(** [(obj[k] || 0) + 1]: an own number is incremented; an own string, and
    an inherited function or object, are truthy and [+] concatenates. *)
Definition plusOne (obj : JsObject) (k : string) : Counter :=
  match getOwn obj k with
  | Some (Num n) => Num (if n =? 0 then 1 else n + 1)
  | Some (Str s) => match s with
                    | EmptyString => Num 1
                    | _ => Str (s ++ "1")
                    end
  | None =>
      if existsb (String.eqb k) objectPrototypeKeys
      then Str (inheritedText k ++ "1")
      else Num 1
  end.

(** Writing an own property: an existing one keeps its place, a new one
    goes last. *)
Fixpoint setOwn (obj : JsObject) (k : string) (v : Counter) : JsObject :=
  match obj with
  | [] => [(k, v)]
  | (k', v') :: obj' =>
      if (k' =? k)%string then (k', v) :: obj' else (k', v') :: setOwn obj' k v
  end.

(** [obj[k] = v] for a primitive [v]: the [__proto__] accessor ignores a
    value that is neither an object nor null; every other key becomes, or
    stays, an own property. *)
Definition assign (obj : JsObject) (k : string) (v : Counter) : JsObject :=
  if (k =? "__proto__")%string then obj else setOwn obj k v.

(** The value of a decimal digit. *)
Definition digitOf (c : ascii) : option N :=
  let n := N_of_ascii c in
  if ((48 <=? n) && (n <=? 57))%N then Some (n - 48)%N else None.

(** The number written by a string of decimal digits, read after [acc]. *)
Fixpoint parseDigits (s : string) (acc : N) : option N :=
  match s with
  | EmptyString => Some acc
  | String c s' =>
      match digitOf c with
      | Some d => parseDigits s' (10 * acc + d)%N
      | None => None
      end
  end.

(** A key is an array index when it is the canonical decimal text of an
    integer in 0 .. 2^32 - 2. *)
Definition arrayIndex (k : string) : option N :=
  match k with
  | EmptyString => None
  | String "0" EmptyString => Some 0%N
  | String "0" _ => None
  | _ =>
      match parseDigits k 0 with
      | Some n => if (n <=? 4294967294)%N then Some n else None
      | None => None
      end
  end.

Definition isArrayIndex (k : string) : bool :=
  match arrayIndex k with
  | Some _ => true
  | None => false
  end.

Definition indexOf (k : string) : N :=
  match arrayIndex k with
  | Some n => n
  | None => 0%N
  end.

(** Insertion into a list kept in ascending order of array index. *)
Fixpoint insertIndexed {V : Type} (e : string * V) (l : list (string * V))
  : list (string * V) :=
  match l with
  | [] => [e]
  | e' :: l' =>
      if (indexOf (fst e) <=? indexOf (fst e'))%N
      then e :: e' :: l'
      else e' :: insertIndexed e l'
  end.

(** [Object.entries]: the array-index keys in ascending numeric order, then
    the other keys in the order the properties were created. *)
Definition Object_entries (obj : JsObject) : list (string * Counter) :=
  fold_right insertIndexed [] (filter (fun e => isArrayIndex (fst e)) obj)
  ++ filter (fun e => negb (isArrayIndex (fst e))) obj.

(** *** [Array.prototype.sort]

    The sort is stable.  [cmp a b < 0] puts [a] before [b]; a comparator
    result of NaN ([None]) counts as 0.  For a consistent comparator every
    conforming sort returns the list computed here. *)
Definition sortCompare {A : Type} (cmp : A -> A -> option Z) (a b : A) : Z :=
  match cmp a b with
  | Some v => v
  | None => 0%Z
  end.

Fixpoint insertSorted {A : Type} (cmp : A -> A -> option Z) (x : A) (l : list A)
  : list A :=
  match l with
  | [] => [x]
  | y :: l' =>
      if (sortCompare cmp y x <? 0)%Z
      then y :: insertSorted cmp x l'
      else x :: y :: l'
  end.

Definition Array_sort {A : Type} (cmp : A -> A -> option Z) (l : list A) : list A :=
  fold_right (insertSorted cmp) [] l.

(* ================================================================== *)
(** ** Data model                                                       *)
(* ================================================================== *)

(** A raw post or comment as the Reddit listing delivers it; only the
    fields the engine reads. *)
Record RawItem : Type := {
  title : jsopt string;
  body : jsopt string;
  subreddit : jsopt string;
  score : jsopt float
}.

Record RedditData : Type := {
  posts : list RawItem;
  comments : list RawItem
}.

Module Evidence.
Record t : Type := {
  type : string;
  content : string;
  subreddit : jsopt string
}.
End Evidence.

Record PersonaTrait : Type := {
  trait : string;
  evidence : list Evidence.t;
  confidence : nat
}.

Module Interest.
Record t : Type := {
  subreddit : string;
  count : Counter
}.
End Interest.

Record Engagement : Type := {
  totalPosts : nat;
  totalComments : nat;
  avgScore : float;
  mostActiveSubreddits : option (list (string * Counter))
}.

(** [interests] and [mostActiveSubreddits] are [None] when the object has
    no such property. *)
Record PersonaResult : Type := {
  username : string;
  summary : string;
  interests : option (list Interest.t);
  traits : list PersonaTrait;
  engagement : Engagement
}.

(* ================================================================== *)
(** ** [generatePersona]                                                *)
(* ================================================================== *)

(** [item.title || item.body || ''] *)
Definition titleOrBody (item : RawItem) : string :=
  if truthyField (title item) then fieldToString (title item)
  else if truthyField (body item) then fieldToString (body item)
  else "".

(** [comment.body || ''] *)
Definition bodyOrEmpty (item : RawItem) : string :=
  if truthyField (body item) then fieldToString (body item) else "".

(** [item.title ? 'post' : 'comment'] *)
Definition postOrComment (item : RawItem) : string :=
  if truthyField (title item) then "post" else "comment".

Definition helpfulKeywords : list string :=
  ["help"; "advice"; "suggestion"; "recommend"; "try this"; "solution"].

Definition techKeywords : list string :=
  ["code"; "programming"; "software"; "tech"; "development"; "algorithm"].

Definition creativeSubreddits : list string :=
  ["art"; "music"; "writing"; "photography"; "design"; "creative"].

(** [keywords.some(keyword => (item.title || item.body || '').toLowerCase().includes(keyword))] *)
Definition mentionsAny (keywords : list string) (item : RawItem) : bool :=
  existsb (fun keyword => includes (toLowerCase (titleOrBody item)) keyword) keywords.

(** [item.subreddit.toLowerCase()]: a TypeError when the field is missing
    or null. *)
Definition subredditLower (item : RawItem) : Outcome string :=
  match subreddit item with
  | val s => Returns (toLowerCase s)
  | _ => Throws TypeError
  end.

(** [creativeSubreddits.some(sub => item.subreddit.toLowerCase().includes(sub))] *)
Definition inCreativeSubreddit (item : RawItem) : Outcome bool :=
  someM (fun sub => s <- subredditLower item ;; Returns (includes s sub))
        creativeSubreddits.

(** [(comment.body || '').length > 200] *)
Definition isLongComment (comment : RawItem) : bool :=
  200 <? String.length (bodyOrEmpty comment).

(** The evidence object built from one of the first two matching items. *)
Definition evidenceOf (kind : RawItem -> string) (text : RawItem -> string)
    (maxLen : nat) (item : RawItem) : Evidence.t :=
  {| Evidence.type := kind item;
     Evidence.content := substring 0 maxLen (text item) ++ "...";
     Evidence.subreddit := subreddit item |}.

(** [subredditCounts[subreddit] = (subredditCounts[subreddit] || 0) + 1] *)
Definition countSubreddit (subredditCounts : JsObject) (item : RawItem) : JsObject :=
  let k := toPropertyKey (subreddit item) in
  assign subredditCounts k (plusOne subredditCounts k).

(** The comparator [([,a], [,b]) => b - a]: NaN as soon as one of the two
    counters is not a number. *)
Definition byCountDescending (x y : string * Counter) : option Z :=
  match snd x, snd y with
  | Num a, Num b => Some (Z.of_nat b - Z.of_nat a)%Z
  | _, _ => None
  end.

Definition noActivitySummary : string :=
  "No public posts or comments found for analysis.".

Definition activeSummary (nPosts nComments : nat) (top : list (string * Counter))
  : string :=
  "Active Reddit user with " ++ natToString nPosts ++ " posts and "
  ++ natToString nComments ++ " comments. Primary interests include "
  ++ join ", " (map fst (firstn 3 top)) ++ ".".

Definition generatePersona (username : string) (data : RedditData)
  : Outcome PersonaResult :=
  let posts := posts data in
  let comments := comments data in
  let allContent := posts ++ comments in
  if length allContent =? 0 then
    Returns {| username := username;
               summary := noActivitySummary;
               interests := None;
               traits := [];
               engagement := {| totalPosts := 0;
                                totalComments := 0;
                                avgScore := 0%float;
                                mostActiveSubreddits := None |} |}
  else
    (* interests, from the subreddits *)
    let subredditCounts := fold_left countSubreddit allContent [] in
    let topSubreddits :=
      firstn 5 (Array_sort byCountDescending (Object_entries subredditCounts)) in
    let traits := [] in
    (* helpful behaviour *)
    let helpfulContent := filter (mentionsAny helpfulKeywords) allContent in
    let traits :=
      if 3 <? length helpfulContent then
        traits ++ [ {| trait := "Helpful and Supportive";
                       evidence := map (evidenceOf postOrComment titleOrBody 100)
                                       (firstn 2 helpfulContent);
                       confidence := Nat.min (length helpfulContent * 10) 100 |} ]
      else traits in
    (* technical interests *)
    let techContent := filter (mentionsAny techKeywords) allContent in
    let traits :=
      if 2 <? length techContent then
        traits ++ [ {| trait := "Technology Enthusiast";
                       evidence := map (evidenceOf postOrComment titleOrBody 100)
                                       (firstn 2 techContent);
                       confidence := Nat.min (length techContent * 15) 100 |} ]
      else traits in
    (* creative interests *)
    creativeContent <- filterM inCreativeSubreddit allContent ;;
    let traits :=
      if 1 <? length creativeContent then
        traits ++ [ {| trait := "Creative and Artistic";
                       evidence := map (evidenceOf postOrComment titleOrBody 100)
                                       (firstn 2 creativeContent);
                       confidence := Nat.min (length creativeContent * 20) 100 |} ]
      else traits in
    (* engagement *)
    let totalScore :=
      fold_left (fun sum item => (sum + numberOrZero (score item))%float)
                allContent 0%float in
    let avgScore := (totalScore / floatOfNat (length allContent))%float in
    (* discussion participation *)
    let longComments := filter isLongComment comments in
    let traits :=
      if 5 <? length longComments then
        traits ++ [ {| trait := "Thoughtful Communicator";
                       evidence := map (evidenceOf (fun _ => "comment") bodyOrEmpty 150)
                                       (firstn 2 longComments);
                       confidence := Nat.min (length longComments * 8) 100 |} ]
      else traits in
    Returns {| username := username;
               summary := activeSummary (length posts) (length comments) topSubreddits;
               interests :=
                 Some (map (fun e => {| Interest.subreddit := fst e;
                                        Interest.count := snd e |})
                           topSubreddits);
               traits := traits;
               engagement :=
                 {| totalPosts := length posts;
                    totalComments := length comments;
                    avgScore := (Math_round (avgScore * 100) / 100)%float;
                    mostActiveSubreddits := Some (firstn 3 topSubreddits) |} |}.

(* ================================================================== *)
(** ** [formatPersonaAsText]                                            *)
(* ================================================================== *)

(** [array.forEach((x, index) => { text += line(x, index) })], the
    accumulator [text] threaded through the calls. *)
Fixpoint forEachFrom {A : Type} (step : string -> A -> nat -> string)
    (l : list A) (index : nat) (text : string) : string :=
  match l with
  | [] => text
  | x :: l' => forEachFrom step l' (S index) (step text x index)
  end.

Definition forEach {A : Type} (step : string -> A -> nat -> string)
    (l : list A) (text : string) : string :=
  forEachFrom step l 0 text.

(** A counter in a template literal. *)
Definition counterToString (c : Counter) : string :=
  match c with
  | Num n => natToString n
  | Str s => s
  end.

Section Renderer.

Local Open Scope string_scope.

(** The renderer reads the clock: [isoNow] is the value of
    [new Date().toISOString()] at the call. *)
Definition formatPersonaAsText (isoNow : string) (persona : PersonaResult)
  : string :=
  let text := "REDDIT USER PERSONA ANALYSIS" ++ nl in
  let text := text ++ (repeatString "=" 50 ++ nl ++ nl) in
  let text := text ++ ("Username: u/" ++ username persona ++ nl) in
  let text := text ++ ("Generated: " ++ isoNow ++ nl ++ nl) in
  let text := text ++ ("SUMMARY" ++ nl) in
  let text := text ++ (repeatString "-" 20 ++ nl) in
  let text := text ++ (summary persona ++ nl ++ nl) in
  let text :=
    match interests persona with
    | Some ((_ :: _) as list) =>
        let text := text ++ ("TOP INTERESTS (by activity)" ++ nl) in
        let text := text ++ (repeatString "-" 30 ++ nl) in
        let text :=
          forEach (fun text interest index =>
                     text ++ (natToString (index + 1) ++ ". r/"
                              ++ Interest.subreddit interest ++ " ("
                              ++ counterToString (Interest.count interest)
                              ++ " posts/comments)" ++ nl))
                  list text in
        text ++ nl
    | _ => text
    end in
  let text :=
    match traits persona with
    | (_ :: _) as list =>
        let text := text ++ ("PERSONALITY TRAITS" ++ nl) in
        let text := text ++ (repeatString "-" 25 ++ nl) in
        forEach (fun text trait' index =>
                   let text :=
                     text ++ (natToString (index + 1) ++ ". " ++ trait trait'
                              ++ " (" ++ natToString (confidence trait')
                              ++ "% confidence)" ++ nl) in
                   let text := text ++ ("   Evidence:" ++ nl) in
                   let text :=
                     forEach (fun text evidence _ =>
                                text ++ ("   - [" ++ Evidence.type evidence
                                         ++ " in r/"
                                         ++ fieldToString (Evidence.subreddit evidence)
                                         ++ "] " ++ Evidence.content evidence ++ nl))
                             (evidence trait') text in
                   text ++ nl)
                list text
    | [] => text
    end in
  let text := text ++ ("ENGAGEMENT STATISTICS" ++ nl) in
  let text := text ++ (repeatString "-" 30 ++ nl) in
  let text :=
    text ++ ("Total Posts: " ++ natToString (totalPosts (engagement persona)) ++ nl) in
  let text :=
    text ++ ("Total Comments: " ++ natToString (totalComments (engagement persona)) ++ nl) in
  let text :=
    text ++ ("Average Score: " ++ Number_toString (avgScore (engagement persona)) ++ nl) in
  let text :=
    match mostActiveSubreddits (engagement persona) with
    | Some list =>
        text ++ ("Most Active Subreddits: "
                 ++ join ", " (map (fun e => "r/" ++ fst e) list) ++ nl)
    | None => text
    end in
  let text := text ++ (nl ++ repeatString "-" 50 ++ nl) in
  let text := text ++ ("Analysis generated by Reddit Persona Analyzer" ++ nl) in
  text.

(** *** The report, section by section

    The pieces of text that [formatPersonaAsText] appends, named after the
    sections of the report; the three conditional ones are empty when
    their guard fails. *)

Definition titleBanner : string :=
  "REDDIT USER PERSONA ANALYSIS" ++ nl ++ repeatString "=" 50 ++ nl ++ nl.

Definition usernameLine (persona : PersonaResult) : string :=
  "Username: u/" ++ username persona ++ nl.

Definition timestampLine (isoNow : string) : string :=
  "Generated: " ++ isoNow ++ nl ++ nl.

Definition summarySection (persona : PersonaResult) : string :=
  "SUMMARY" ++ nl ++ repeatString "-" 20 ++ nl ++ summary persona ++ nl ++ nl.

Definition interestLine (interest : Interest.t) (index : nat) : string :=
  natToString (index + 1) ++ ". r/" ++ Interest.subreddit interest ++ " ("
  ++ counterToString (Interest.count interest) ++ " posts/comments)" ++ nl.

Fixpoint linesFrom {A : Type} (line : A -> nat -> string) (l : list A)
    (index : nat) : string :=
  match l with
  | [] => ""
  | x :: l' => line x index ++ linesFrom line l' (S index)
  end.

Definition interestsSection (persona : PersonaResult) : string :=
  match interests persona with
  | Some ((_ :: _) as list) =>
      "TOP INTERESTS (by activity)" ++ nl ++ repeatString "-" 30 ++ nl
      ++ linesFrom interestLine list 0 ++ nl
  | _ => ""
  end.

Definition evidenceLine (evidence : Evidence.t) (_ : nat) : string :=
  "   - [" ++ Evidence.type evidence ++ " in r/"
  ++ fieldToString (Evidence.subreddit evidence) ++ "] "
  ++ Evidence.content evidence ++ nl.

Definition traitBlock (trait' : PersonaTrait) (index : nat) : string :=
  natToString (index + 1) ++ ". " ++ trait trait' ++ " ("
  ++ natToString (confidence trait') ++ "% confidence)" ++ nl
  ++ "   Evidence:" ++ nl
  ++ linesFrom evidenceLine (evidence trait') 0 ++ nl.

Definition traitsSection (persona : PersonaResult) : string :=
  match traits persona with
  | (_ :: _) as list =>
      "PERSONALITY TRAITS" ++ nl ++ repeatString "-" 25 ++ nl
      ++ linesFrom traitBlock list 0
  | [] => ""
  end.

Definition engagementTotals (persona : PersonaResult) : string :=
  "ENGAGEMENT STATISTICS" ++ nl ++ repeatString "-" 30 ++ nl
  ++ "Total Posts: " ++ natToString (totalPosts (engagement persona)) ++ nl
  ++ "Total Comments: " ++ natToString (totalComments (engagement persona)) ++ nl
  ++ "Average Score: " ++ Number_toString (avgScore (engagement persona)) ++ nl.

Definition mostActiveLine (persona : PersonaResult) : string :=
  match mostActiveSubreddits (engagement persona) with
  | Some list =>
      "Most Active Subreddits: "
      ++ join ", " (map (fun e => "r/" ++ fst e) list) ++ nl
  | None => ""
  end.

Definition footer : string :=
  nl ++ repeatString "-" 50 ++ nl
  ++ "Analysis generated by Reddit Persona Analyzer" ++ nl.

End Renderer.

(* ================================================================== *)
(** ** Vocabulary of the written design                                 *)
(* ================================================================== *)

(** The combined item sequence: posts first, then comments. *)
Definition allContent (data : RedditData) : list RawItem :=
  posts data ++ comments data.

(** The origin of an item, as the key under which it is counted. *)
Definition originOf (item : RawItem) : string :=
  toPropertyKey (subreddit item).

Definition origins (data : RedditData) : list string :=
  map originOf (allContent data).

(** The item names its subreddit (the data model's non-null origin). *)
Definition hasSubreddit (item : RawItem) : bool :=
  match subreddit item with
  | val _ => true
  | _ => false
  end.

Definition hasOrigins (data : RedditData) : bool :=
  forallb hasSubreddit (allContent data).

(** The number of items whose origin is [k]. *)
Definition itemsIn (k : string) (data : RedditData) : nat :=
  count_occ string_dec (origins data) k.

(** *** The rule catalog of the design, as a table

    Each row: the trait label, the items the rule looks at, the test an item
    must pass, the threshold that the number of passing items must exceed,
    the confidence multiplier, and how an evidence snippet is cut. *)
Record Rule : Type := {
  label : string;
  pool : RedditData -> list RawItem;
  qualifies : RawItem -> bool;
  threshold : nat;
  multiplier : nat;
  snippetLength : nat;
  snippetText : RawItem -> string;
  kindOf : RawItem -> string
}.

(** The origin contains one of the creative substrings; an item without a
    subreddit does not pass. *)
Definition inCreative (item : RawItem) : bool :=
  match subreddit item with
  | val s => existsb (fun sub => includes (toLowerCase s) sub) creativeSubreddits
  | _ => false
  end.

Definition helpfulRule : Rule :=
  {| label := "Helpful and Supportive"; pool := allContent;
     qualifies := mentionsAny helpfulKeywords;
     threshold := 3; multiplier := 10; snippetLength := 100;
     snippetText := titleOrBody; kindOf := postOrComment |}.

Definition techRule : Rule :=
  {| label := "Technology Enthusiast"; pool := allContent;
     qualifies := mentionsAny techKeywords;
     threshold := 2; multiplier := 15; snippetLength := 100;
     snippetText := titleOrBody; kindOf := postOrComment |}.

Definition creativeRule : Rule :=
  {| label := "Creative and Artistic"; pool := allContent;
     qualifies := inCreative;
     threshold := 1; multiplier := 20; snippetLength := 100;
     snippetText := titleOrBody; kindOf := postOrComment |}.

Definition thoughtfulRule : Rule :=
  {| label := "Thoughtful Communicator"; pool := comments;
     qualifies := isLongComment;
     threshold := 5; multiplier := 8; snippetLength := 150;
     snippetText := bodyOrEmpty; kindOf := fun _ => "comment" |}.

Definition ruleCatalog : list Rule :=
  [helpfulRule; techRule; creativeRule; thoughtfulRule].

(** The qualifying items of a rule, in combined-sequence order. *)
Definition matching (rule : Rule) (data : RedditData) : list RawItem :=
  filter (qualifies rule) (pool rule data).

Definition matchCount (rule : Rule) (data : RedditData) : nat :=
  length (matching rule data).

(** What a rule contributes to the trait list: nothing, or one detection. *)
Definition detect (data : RedditData) (rule : Rule) : list PersonaTrait :=
  if threshold rule <? matchCount rule data then
    [ {| trait := label rule;
         evidence := map (evidenceOf (kindOf rule) (snippetText rule)
                                     (snippetLength rule))
                         (firstn 2 (matching rule data));
         confidence := Nat.min (matchCount rule data * multiplier rule) 100 |} ]
  else [].

(** The trait list read off the table, rule by rule. *)
Definition traitsByCatalog (data : RedditData) : list PersonaTrait :=
  flat_map (detect data) ruleCatalog.

(** The text from which the evidence of a trait is cut: the snippet kept
    whole when it fits, and cut with the ellipsis marker when it does not
    (the reading of the design in which the marker shows a cut). *)
Definition markedSnippet (maxLen : nat) (text : string) : string :=
  if String.length text <=? maxLen then text
  else substring 0 maxLen text ++ "...".

(** *** Order of the keys of the counter object *)

(** Position of the first occurrence of [k] in [l] ([length l] if none). *)
Fixpoint firstIndex (k : string) (l : list string) : nat :=
  match l with
  | [] => 0
  | k' :: l' => if (k' =? k)%string then 0 else S (firstIndex k l')
  end.

(** [k1] was first met before [k2] in the item sequence. *)
Definition firstSeenBefore (seen : list string) (k1 k2 : string) : Prop :=
  firstIndex k1 seen < firstIndex k2 seen.

(** [k1] is enumerated before [k2]: array-index keys come first, in
    ascending numeric order, then the other keys as first met. *)
Definition keyBefore (seen : list string) (k1 k2 : string) : Prop :=
  match arrayIndex k1, arrayIndex k2 with
  | Some n1, Some n2 => (n1 < n2)%N
  | Some _, None => True
  | None, Some _ => False
  | None, None => firstSeenBefore seen k1 k2
  end.

(** The names under which a plain object finds an inherited function. *)
Definition inheritedMethods : list string :=
  [ "constructor"; "hasOwnProperty"; "isPrototypeOf"; "propertyIsEnumerable";
    "toLocaleString"; "toString"; "valueOf"; "__defineGetter__";
    "__defineSetter__"; "__lookupGetter__"; "__lookupSetter__" ].

Definition isInheritedMethod (k : string) : bool :=
  existsb (String.eqb k) inheritedMethods.

(** No item's origin is the name of an inherited function. *)
Definition plainOrigins (data : RedditData) : bool :=
  forallb (fun k => negb (isInheritedMethod k)) (origins data).

(** The distinct origins that the counter object can hold: all but
    [__proto__]. *)
Definition countedOrigins (data : RedditData) : list string :=
  nodup string_dec (filter (fun k => negb (k =? "__proto__")%string) (origins data)).

Definition distinctOrigins (data : RedditData) : list string :=
  nodup string_dec (origins data).

(** The count held by a numeric counter. *)
Definition countValue (c : Counter) : nat :=
  match c with
  | Num n => n
  | Str _ => 0
  end.

Definition isNum (c : Counter) : bool :=
  match c with
  | Num _ => true
  | Str _ => false
  end.

Definition entryOf (interest : Interest.t) : string * Counter :=
  (Interest.subreddit interest, Interest.count interest).

(** *** The parts of a result, named *)

Definition subredditCountsOf (data : RedditData) : JsObject :=
  fold_left countSubreddit (allContent data) [].

(** All origins with their counters, ranked; callers take prefixes. *)
Definition ranking (data : RedditData) : list (string * Counter) :=
  Array_sort byCountDescending (Object_entries (subredditCountsOf data)).

Definition interestOf (e : string * Counter) : Interest.t :=
  {| Interest.subreddit := fst e; Interest.count := snd e |}.

Definition totalScoreOf (data : RedditData) : float :=
  fold_left (fun sum item => (sum + numberOrZero (score item))%float)
            (allContent data) 0%float.

(** [Math.round(x * 100) / 100] in double arithmetic. *)
Definition roundToHundredths (x : float) : float :=
  (Math_round (x * 100) / 100)%float.

Definition meanScoreOf (data : RedditData) : float :=
  (totalScoreOf data / floatOfNat (length (allContent data)))%float.

(** The result for an input with no item at all. *)
Definition emptyPersona (username : string) : PersonaResult :=
  {| username := username;
     summary := noActivitySummary;
     interests := None;
     traits := [];
     engagement := {| totalPosts := 0; totalComments := 0;
                      avgScore := 0%float; mostActiveSubreddits := None |} |}.

(** The result for an input with at least one item, every item naming its
    subreddit. *)
Definition activePersona (username : string) (data : RedditData) : PersonaResult :=
  {| username := username;
     summary := activeSummary (length (posts data)) (length (comments data))
                              (firstn 5 (ranking data));
     interests := Some (map interestOf (firstn 5 (ranking data)));
     traits := traitsByCatalog data;
     engagement :=
       {| totalPosts := length (posts data);
          totalComments := length (comments data);
          avgScore := roundToHundredths (meanScoreOf data);
          mostActiveSubreddits := Some (firstn 3 (firstn 5 (ranking data))) |} |}.

(** *** Readings of the design that the code is checked against *)

(** Every evidence snippet is the text of its item, kept whole when it
    fits and marked with the ellipsis only when it was cut. *)
Definition evidenceMarkedOnlyWhenCut (data : RedditData) (r : PersonaResult) : Prop :=
  forall t rule, In t (traits r) -> In rule ruleCatalog -> trait t = label rule ->
    map Evidence.content (evidence t)
    = map (fun item => markedSnippet (snippetLength rule) (snippetText rule item))
          (firstn 2 (matching rule data)).

(** Interests with the same count stand in the order in which their
    origins were first met in the item sequence. *)
Definition tiesInFirstSeenOrder (data : RedditData) (r : PersonaResult) : Prop :=
  forall entries, interests r = Some entries ->
    StronglySorted
      (fun a b => Interest.count a = Interest.count b ->
                  firstSeenBefore (origins data)
                                  (Interest.subreddit a) (Interest.subreddit b))
      entries.

(** The interests list has one entry per distinct origin, up to five. *)
Definition fiveOfTheDistinctOrigins (data : RedditData) (r : PersonaResult) : Prop :=
  forall entries, interests r = Some entries ->
    length entries = Nat.min 5 (length (distinctOrigins data)).

(** One step of the counting loop, on the key alone. *)
Definition countKey (obj : JsObject) (k : string) : JsObject :=
  assign obj k (plusOne obj k).

(** [a] stands before [b] in a list sorted by descending rank in which
    equal ranks are ordered by [before]. *)
Definition rankedBefore {A : Type} (rank : A -> nat) (before : A -> A -> Prop)
    (a b : A) : Prop :=
  rank a > rank b \/ (rank a = rank b /\ before a b).

(** *** Sample inputs *)

Definition post (t : string) (sub : string) (s : float) : RawItem :=
  {| title := val t; body := undefined; subreddit := val sub; score := val s |}.

Definition comment (b : string) (sub : string) (s : float) : RawItem :=
  {| title := undefined; body := val b; subreddit := val sub; score := val s |}.

(** Four comments in r/programming that mention code. *)
Definition fourTechComments : RedditData :=
  {| posts := [];
     comments := repeat (comment "I write code every day" "programming" 1%float) 4 |}.

(** Four short posts that ask for help. *)
Definition fourHelpPosts : RedditData :=
  {| posts := repeat (post "help" "AskReddit" 2%float) 4; comments := [] |}.

(** One post, scored 0. *)
Definition oneUnvotedPost : RedditData :=
  {| posts := [post "hello" "pics" 0%float]; comments := [] |}.

(** Forty posts in one subreddit, 23 of them scored 1 and 17 scored 0. *)
Definition fortyPosts : RedditData :=
  {| posts := repeat (post "a" "pics" 1%float) 23 ++ repeat (post "b" "pics" 0%float) 17;
     comments := [] |}.

(** One post whose record has no subreddit field. *)
Definition postWithoutSubreddit : RedditData :=
  {| posts := [ {| title := val "hello"; body := val "world";
                   subreddit := undefined; score := val 1%float |} ];
     comments := [] |}.

Definition noActivity : RedditData := {| posts := []; comments := [] |}.

(** Eight posts in one subreddit, one of them scored 1. *)
Definition eightPosts : RedditData :=
  {| posts := post "a" "pics" 1%float :: repeat (post "b" "pics" 0%float) 7;
     comments := [] |}.

(** One post in a subreddit called [constructor]. *)
Definition oneConstructorPost : RedditData :=
  {| posts := [post "a" "constructor" 1%float]; comments := [] |}.

(** One post in r/digitalart. *)
Definition oneDigitalArtPost : RedditData :=
  {| posts := [post "sketch" "digitalart" 1%float]; comments := [] |}.

(** Six comments of 250 characters each. *)
Definition sixLongComments : RedditData :=
  {| posts := [];
     comments := repeat (comment (repeatString "x" 250) "AskReddit" 1%float) 6 |}.

(** A post in r/pics, then a post in r/196. *)
Definition picsThen196 : RedditData :=
  {| posts := [post "a" "pics" 1%float; post "b" "196" 1%float]; comments := [] |}.

(** One post whose subreddit is spelled [__proto__]. *)
Definition onlyProto : RedditData :=
  {| posts := [post "a" "__proto__" 1%float]; comments := [] |}.

(* ================================================================== *)
(** ** [extractUsername]                                                *)
(* ================================================================== *)

(** [url.match(/reddit\.com\/(?:u|user)\/([^\/\?#]+)/i)]: the pattern is
    tried at every position from the left, and the first position at
    which it matches gives the capture.  Under the flag [i] a unit of the
    text matches a letter of the pattern in either case; the pattern's
    literals are written in lower case. *)

(** A literal of the pattern read at the head of [s], letter case ignored:
    what follows it in [s]. *)
Fixpoint skipLiteral (literal s : string) : option string :=
  match literal with
  | EmptyString => Some s
  | String p literal' =>
      match s with
      | EmptyString => None
      | String c s' =>
          if Ascii.eqb (lowerUnit c) p then skipLiteral literal' s' else None
      end
  end.

(** The class [[^\/\?#]]. *)
Definition isNameUnit (c : ascii) : bool :=
  negb (Ascii.eqb c "/" || Ascii.eqb c "?" || Ascii.eqb c "#").

(** The greedy [[^\/\?#]*]: the longest run of name units at the head. *)
Fixpoint nameRun (s : string) : string :=
  match s with
  | EmptyString => EmptyString
  | String c s' => if isNameUnit c then String c (nameRun s') else EmptyString
  end.

(** [\/([^\/\?#]+)]: a slash, then a run of at least one name unit. *)
Definition slashThenName (s : string) : option string :=
  match skipLiteral "/" s with
  | Some s' =>
      match nameRun s' with
      | EmptyString => None
      | name => Some name
      end
  | None => None
  end.

(** The whole pattern at the head of [s]; the alternative [u] is tried
    before [user]. *)
Definition matchHere (s : string) : option string :=
  match skipLiteral "reddit.com/" s with
  | None => None
  | Some s1 =>
      match (match skipLiteral "u" s1 with
             | Some s2 => slashThenName s2
             | None => None
             end) with
      | Some name => Some name
      | None =>
          match skipLiteral "user" s1 with
          | Some s2 => slashThenName s2
          | None => None
          end
      end
  end.

(** [match ? match[1] : null] *)
Fixpoint extractUsername (url : string) : option string :=
  match matchHere url with
  | Some name => Some name
  | None =>
      match url with
      | EmptyString => None
      | String _ url' => extractUsername url'
      end
  end.

(** *** What the pattern describes *)

Definition allNameUnits (s : string) : bool :=
  forallb isNameUnit (list_ascii_of_string s).

(** [s] ends, or goes on with one of the three delimiters. *)
Definition endsName (s : string) : bool :=
  match s with
  | EmptyString => true
  | String c _ => negb (isNameUnit c)
  end.

(** [s] begins with a profile path for [name]: "reddit.com/", then "u" or
    "user", a slash, and the name up to the end or the next delimiter,
    letter case ignored outside the name. *)
Definition profileAt (s name : string) : Prop :=
  exists host kind rest,
    s = (host ++ kind ++ "/" ++ name ++ rest)%string
    /\ toLowerCase host = "reddit.com/"%string
    /\ (toLowerCase kind = "u"%string \/ toLowerCase kind = "user"%string)
    /\ name <> ""%string /\ allNameUnits name = true /\ endsName rest = true.

(* ================================================================== *)
(** ** The server: fetching, the two routes                             *)
(* ================================================================== *)

(** What [axios.get] does with a listing URL: the request is rejected
    (network error, 404, rate limit) with a message; or it is answered,
    and reading [response.data.data.children] then either raises an error
    with a message or gives the [data] records of the children. *)
Inductive HttpResult : Type :=
| Rejected (message : string)
| Malformed (message : string)
| Listing (items : list RawItem).

(** The files under the server's working directory, by path; the entry
    written last comes first.  A file holds the text that was written to
    it: a text of this embedding is made of the units U+0000..U+00FF, each
    a character of its own, which the UTF-8 encoding of [fs.writeFile] and
    the decoding of [fs.readFile] give back as it was. *)
Definition Files : Type := list (string * string).

(** [fs.readFile(path, 'utf8')]: the content, or nothing when the read
    fails. *)
Fixpoint readFile (files : Files) (path : string) : option string :=
  match files with
  | [] => None
  | (path', content) :: files' =>
      if (path' =? path)%string then Some content else readFile files' path
  end.

(** [fs.writeFile(path, content)], when it succeeds. *)
Definition writeFile (files : Files) (path content : string) : Files :=
  (path, content) :: files.

(** What the server takes from outside during one request: the answers of
    Reddit, the two readings of the clock, where [path.join(process.cwd(),
    'generated', filename)] points, and whether creating the directory and
    writing the file at a path fails (with which message). *)
Record Host : Type := {
  axiosGet : string -> HttpResult;
  isoNow : string;
  dateNow : Z;
  joinGenerated : string -> string;
  diskError : string -> option string
}.

(** An integer in a template literal. *)
Definition integerToString (z : Z) : string :=
  if (z <? 0)%Z then "-" ++ decimalOfZ (- z) else decimalOfZ z.

Definition submittedUrl (username : string) : string :=
  "https://www.reddit.com/user/" ++ username ++ "/submitted.json?limit=50".

Definition commentsUrl (username : string) : string :=
  "https://www.reddit.com/user/" ++ username ++ "/comments.json?limit=50".

Definition fetchFailure (message : string) : string :=
  "Failed to fetch Reddit data: " ++ message.

(** [fetchRedditData]: the posts are requested first, then the comments;
    the two bodies are read after both requests; whatever is thrown on the
    way is thrown again with the prefixed message ([inr]). *)
Definition fetchRedditData (host : Host) (username : string)
  : RedditData + string :=
  match axiosGet host (submittedUrl username) with
  | Rejected message => inr (fetchFailure message)
  | Malformed postsMessage =>
      match axiosGet host (commentsUrl username) with
      | Rejected message => inr (fetchFailure message)
      | _ => inr (fetchFailure postsMessage)
      end
  | Listing posts =>
      match axiosGet host (commentsUrl username) with
      | Rejected message => inr (fetchFailure message)
      | Malformed message => inr (fetchFailure message)
      | Listing comments => inl {| posts := posts; comments := comments |}
      end
  end.

(** The [message] of what the route caught: a text, or the message the
    host gives to the error thrown by the engine. *)
Inductive ErrorMessage : Type :=
| Text (text : string)
| MessageOf (e : JsError).

(** The answer of [POST /api/persona]. *)
Inductive PersonaResponse : Type :=
| Status400 (error : string)
| Status500 (error : ErrorMessage)
| Status200 (persona : PersonaResult) (filename downloadUrl : string).

Definition reportFilename (username : string) (now : Z) : string :=
  "persona_" ++ username ++ "_" ++ integerToString now ++ ".txt".

(** [app.post('/api/persona', ...)] on the body field [redditUrl]: the
    answer and the files afterwards. *)
Definition postPersona (host : Host) (files : Files) (redditUrl : jsopt string)
  : PersonaResponse * Files :=
  if negb (truthyField redditUrl) then
    (Status400 "Reddit URL is required", files)
  else
    match extractUsername (fieldToString redditUrl) with
    | None => (Status400 "Invalid Reddit user URL", files)
    | Some username =>
        match fetchRedditData host username with
        | inr message => (Status500 (Text message), files)
        | inl redditData =>
            match generatePersona username redditData with
            | Throws e => (Status500 (MessageOf e), files)
            | Returns persona =>
                let personaText := formatPersonaAsText (isoNow host) persona in
                let filename := reportFilename username (dateNow host) in
                let filepath := joinGenerated host filename in
                match diskError host filepath with
                | Some message => (Status500 (Text message), files)
                | None =>
                    (Status200 persona filename ("/api/download/" ++ filename)%string,
                     writeFile files filepath personaText)
                end
            end
        end
    end.

(** The answer of [GET /api/download/:filename]: the route has set
    [headers] and called [res.send(body)], or it has answered 404. *)
Inductive DownloadResponse : Type :=
| Sent (headers : list (string * string)) (body : string)
| Status404 (error : string).

Definition doubleQuote : string := String (ascii_of_nat 34) EmptyString.

(** The units that the value of a header may hold: the horizontal tab,
    U+0020..U+007E and U+0080..U+00FF.  Node refuses a value that matches
    [/[^\t\x20-\x7e\x80-\xff]/]: a control character, a line break, DEL. *)
Definition isHeaderUnit (c : ascii) : bool :=
  let n := nat_of_ascii c in
  (n =? 9) || ((32 <=? n) && (n <=? 126)) || (128 <=? n).

Definition validHeaderValue (value : string) : bool :=
  forallb isHeaderUnit (list_ascii_of_string value).

(** [res.setHeader(name, value)] on the headers set so far: a TypeError
    for a value with a unit that no header may hold. *)
Definition setHeader (headers : list (string * string)) (name value : string)
  : Outcome (list (string * string)) :=
  if validHeaderValue value then Returns (headers ++ [(name, value)])
  else Throws TypeError.

(** [`attachment; filename="${filename}"`] *)
Definition contentDisposition (filename : string) : string :=
  "attachment; filename=" ++ doubleQuote ++ filename ++ doubleQuote.

(** [app.get('/api/download/:filename', ...)] on the route parameter: a
    failed read and a refused header both end in the [catch], which
    answers 404. *)
Definition getDownload (host : Host) (files : Files) (filename : string)
  : DownloadResponse :=
  let filepath := joinGenerated host filename in
  match readFile files filepath with
  | None => Status404 "File not found"
  | Some fileContent =>
      match (headers <- setHeader [] "Content-Disposition"
                                  (contentDisposition filename) ;;
             setHeader headers "Content-Type" "text/plain") with
      | Returns headers => Sent headers fileContent
      | Throws _ => Status404 "File not found"
      end
  end.

(** *** Variations of an input, and a sample host *)

Definition mapData (f : RawItem -> RawItem) (data : RedditData) : RedditData :=
  {| posts := map f (posts data); comments := map f (comments data) |}.

(** A text field that is missing, null or empty, as a missing one. *)
Definition falsyToMissing (f : jsopt string) : jsopt string :=
  if truthyField f then f else undefined.

(** The item with its defaults written out: no title or body where the
    field is missing, null or empty, and the score that [score || 0]
    reads. *)
Definition withDefaults (item : RawItem) : RawItem :=
  {| title := falsyToMissing (title item);
     body := falsyToMissing (body item);
     subreddit := subreddit item;
     score := val (numberOrZero (score item)) |}.

Definition recaseField (recase : string -> string) (f : jsopt string)
  : jsopt string :=
  match f with
  | val s => val (recase s)
  | other => other
  end.

(** The item with its title, body and subreddit rewritten by [recase]. *)
Definition recased (recase : string -> string) (item : RawItem) : RawItem :=
  {| title := recaseField recase (title item);
     body := recaseField recase (body item);
     subreddit := recaseField recase (subreddit item);
     score := score item |}.

(** The three rules that look for keywords in a lower-cased text; the
    fourth rule looks at the length of a comment. *)
Definition keywordRules : list Rule := [helpfulRule; techRule; creativeRule].

Definition byKeywordRule (t : PersonaTrait) : bool :=
  existsb (fun rule => (trait t =? label rule)%string) keywordRules.

(** The traits found by the keyword rules, each with its confidence. *)
Definition keywordTraits (r : PersonaResult) : list (string * nat) :=
  map (fun t => (trait t, confidence t)) (filter byKeywordRule (traits r)).

(** A user name with a line break in it. *)
Definition twoLineName : string := "koj" ++ nl ++ "ied".

(** The counts of a list of interests, added up. *)
Definition totalCount (entries : list Interest.t) : nat :=
  list_sum (map (fun e => countValue (Interest.count e)) entries).

(** A host on which Reddit answers with no post and four comments about
    code, and the disk works. *)
Definition sampleHost : Host :=
  {| axiosGet := fun url =>
       if (url =? submittedUrl "kojied")%string then Listing []
       else Listing (comments fourTechComments);
     isoNow := "2025-07-14T09:30:00.000Z";
     dateNow := 1752485400000%Z;
     joinGenerated := fun filename => ("/srv/app/generated/" ++ filename)%string;
     diskError := fun _ => None |}.

(** A post without title, body and score, and a comment with an empty
    body and a null score. *)
Definition sparseItems : RedditData :=
  {| posts := [ {| title := null; body := undefined;
                   subreddit := val "pics"; score := undefined |} ];
     comments := [ {| title := undefined; body := val "";
                      subreddit := val "pics"; score := null |} ] |}.

(** Four posts that ask for help with code. *)
Definition fourHelpWithCodePosts : RedditData :=
  {| posts := repeat (post "need help with my code" "learnprogramming" 1%float) 4;
     comments := [] |}.

(** Four posts that shout for help. *)
Definition fourLoudPosts : RedditData :=
  {| posts := repeat (post "HELP me, Please" "AskReddit" 2%float) 4; comments := [] |}.

(* ================================================================== *)
(** ** Properties                                                       *)
(* ================================================================== *)

(** *** Exceptions: where [generatePersona] throws and where it returns *)

Lemma someM_pure {A : Type} (f : A -> bool) (l : list A) :
  someM (fun x => Returns (f x)) l = Returns (existsb f l).
Proof.
  induction l as [|x l IH]; simpl; [reflexivity|].
  destruct (f x); [reflexivity | exact IH].
Qed.

Lemma inCreativeSubreddit_val (item : RawItem) :
  hasSubreddit item = true ->
  inCreativeSubreddit item = Returns (inCreative item).
Proof.
  unfold hasSubreddit, inCreativeSubreddit, inCreative, subredditLower.
  destruct (subreddit item) as [| |s]; try discriminate.
  intros _. simpl bind.
  apply (someM_pure (fun sub => includes (toLowerCase s) sub)).
Qed.

Lemma inCreativeSubreddit_missing (item : RawItem) :
  hasSubreddit item = false ->
  inCreativeSubreddit item = Throws TypeError.
Proof.
  unfold hasSubreddit, inCreativeSubreddit, subredditLower.
  destruct (subreddit item); try discriminate; reflexivity.
Qed.

Lemma filterM_inCreative (l : list RawItem) :
  forallb hasSubreddit l = true ->
  filterM inCreativeSubreddit l = Returns (filter inCreative l).
Proof.
  induction l as [|x l IH]; simpl; [reflexivity|].
  intros H. apply andb_true_iff in H as [Hx Hl].
  rewrite (inCreativeSubreddit_val x Hx). simpl.
  rewrite (IH Hl). simpl. reflexivity.
Qed.

Lemma filterM_inCreative_throws (l : list RawItem) :
  forallb hasSubreddit l = false ->
  filterM inCreativeSubreddit l = Throws TypeError.
Proof.
  induction l as [|x l IH]; simpl; [discriminate|].
  intros H. destruct (hasSubreddit x) eqn:Hx.
  - rewrite (inCreativeSubreddit_val x Hx). simpl in *.
    rewrite (IH H). reflexivity.
  - rewrite (inCreativeSubreddit_missing x Hx). reflexivity.
Qed.

Lemma length_zero_nil {A : Type} (l : list A) :
  (length l =? 0) = true <-> l = [].
Proof.
  destruct l; simpl; split; intros H; try reflexivity; discriminate.
Qed.

(** With no item at all the function returns at once. *)
Lemma generatePersona_empty (u : string) (data : RedditData) :
  allContent data = [] ->
  generatePersona u data = Returns (emptyPersona u).
Proof.
  unfold allContent, generatePersona. intros H. rewrite H. reflexivity.
Qed.

(** The code's four branches build the list that the table describes. *)
Lemma branches_as_catalog (data : RedditData) :
  let allContent := posts data ++ comments data in
  let helpfulContent := filter (mentionsAny helpfulKeywords) allContent in
  let techContent := filter (mentionsAny techKeywords) allContent in
  let creativeContent := filter inCreative allContent in
  let longComments := filter isLongComment (comments data) in
  let traits0 : list PersonaTrait := [] in
  let traits1 :=
    if 3 <? length helpfulContent then
      traits0 ++ [ {| trait := "Helpful and Supportive";
                      evidence := map (evidenceOf postOrComment titleOrBody 100)
                                      (firstn 2 helpfulContent);
                      confidence := Nat.min (length helpfulContent * 10) 100 |} ]
    else traits0 in
  let traits2 :=
    if 2 <? length techContent then
      traits1 ++ [ {| trait := "Technology Enthusiast";
                      evidence := map (evidenceOf postOrComment titleOrBody 100)
                                      (firstn 2 techContent);
                      confidence := Nat.min (length techContent * 15) 100 |} ]
    else traits1 in
  let traits3 :=
    if 1 <? length creativeContent then
      traits2 ++ [ {| trait := "Creative and Artistic";
                      evidence := map (evidenceOf postOrComment titleOrBody 100)
                                      (firstn 2 creativeContent);
                      confidence := Nat.min (length creativeContent * 20) 100 |} ]
    else traits2 in
  let traits4 :=
    if 5 <? length longComments then
      traits3 ++ [ {| trait := "Thoughtful Communicator";
                      evidence := map (evidenceOf (fun _ => "comment") bodyOrEmpty 150)
                                      (firstn 2 longComments);
                      confidence := Nat.min (length longComments * 8) 100 |} ]
    else traits3 in
  traits4 = traitsByCatalog data.
Proof.
  cbv zeta.
  unfold traitsByCatalog, ruleCatalog, detect, matchCount, matching.
  cbn [flat_map label pool qualifies threshold multiplier snippetLength
       snippetText kindOf helpfulRule techRule creativeRule thoughtfulRule].
  unfold allContent.
  destruct (3 <? _); destruct (2 <? _); destruct (1 <? _); destruct (5 <? _);
    reflexivity.
Qed.

(** With at least one item, and a subreddit on every item, the function
    returns the assembled persona. *)
Lemma generatePersona_active (u : string) (data : RedditData) :
  allContent data <> [] ->
  hasOrigins data = true ->
  generatePersona u data = Returns (activePersona u data).
Proof.
  intros Hne Hs. unfold generatePersona.
  destruct (length (posts data ++ comments data) =? 0) eqn:E.
  { apply length_zero_nil in E. contradiction. }
  unfold hasOrigins, allContent in Hs.
  rewrite (filterM_inCreative _ Hs). cbn [bind].
  rewrite (branches_as_catalog data).
  reflexivity.
Qed.

(** With at least one item, one of them without a subreddit, the function
    throws. *)
Lemma generatePersona_throws (u : string) (data : RedditData) :
  hasOrigins data = false ->
  generatePersona u data = Throws TypeError.
Proof.
  intros Hs. unfold generatePersona.
  unfold hasOrigins, allContent in Hs.
  destruct (length (posts data ++ comments data) =? 0) eqn:E.
  { apply length_zero_nil in E. rewrite E in Hs. discriminate. }
  rewrite (filterM_inCreative_throws _ Hs). reflexivity.
Qed.

(** The function returns exactly when every item names its subreddit. *)
Lemma generatePersona_returns_iff (u : string) (data : RedditData) :
  (exists r, generatePersona u data = Returns r) <-> hasOrigins data = true.
Proof.
  split.
  - intros [r Hr]. destruct (hasOrigins data) eqn:Hs; [reflexivity|].
    rewrite (generatePersona_throws u data Hs) in Hr. discriminate.
  - intros Hs. destruct (allContent data) eqn:E.
    + exists (emptyPersona u). now apply generatePersona_empty.
    + exists (activePersona u data). apply generatePersona_active; [|exact Hs].
      rewrite E. discriminate.
Qed.

(** Whatever is returned, its traits are the ones the table describes. *)
Lemma traits_of_result (u : string) (data : RedditData) :
  hasOrigins data = true ->
  exists r, generatePersona u data = Returns r /\ traits r = traitsByCatalog data.
Proof.
  intros Hs. destruct (allContent data) eqn:E.
  - exists (emptyPersona u). split; [now apply generatePersona_empty|].
    unfold allContent in E. apply app_eq_nil in E as [Hp Hc].
    unfold traitsByCatalog, ruleCatalog, detect, matchCount, matching.
    cbn [flat_map pool helpfulRule techRule creativeRule thoughtfulRule].
    unfold allContent. rewrite Hp, Hc. reflexivity.
  - exists (activePersona u data). split; [|reflexivity].
    apply generatePersona_active; [|exact Hs]. rewrite E. discriminate.
Qed.

(** *** Keyword matching *)

Lemma prefix_spec (kw s : string) :
  prefix kw s = true <-> exists rest, s = (kw ++ rest)%string.
Proof.
  revert s. induction kw as [|a kw IH]; intros s.
  - split; [intros _; now exists s | intros _; now destruct s].
  - destruct s as [|b s]; simpl.
    + split; [discriminate | intros [rest H]; discriminate H].
    + destruct (ascii_dec a b) as [->|Hne].
      * rewrite IH. split; intros [rest H]; exists rest.
        -- now rewrite H.
        -- now injection H.
      * split; [discriminate | intros [rest H]; injection H as H _; congruence].
Qed.

(** [includes] is the search for a contiguous occurrence. *)
Lemma includes_spec (s kw : string) :
  includes s kw = true <-> exists before rest, s = (before ++ kw ++ rest)%string.
Proof.
  induction s as [|c s IH]; cbn [includes].
  - rewrite orb_false_r, prefix_spec. split.
    + intros [rest H]. now exists ""%string, rest.
    + intros [[|b before] [rest H]]; [now exists rest | discriminate H].
  - rewrite orb_true_iff, prefix_spec, IH. split.
    + intros [[rest H]|[before [rest H]]].
      * now exists ""%string, rest.
      * exists (String c before), rest. simpl. now rewrite H.
    + intros [[|b before] [rest H]].
      * left. now exists rest.
      * right. simpl in H. injection H as _ H. now exists before, rest.
Qed.

(** An item passes a keyword rule when its lower-cased text contains one
    of the keywords. *)
Lemma mentionsAny_spec (keywords : list string) (item : RawItem) :
  mentionsAny keywords item = true
  <-> exists keyword before rest,
        In keyword keywords
        /\ toLowerCase (titleOrBody item) = (before ++ keyword ++ rest)%string.
Proof.
  unfold mentionsAny. rewrite existsb_exists. split.
  - intros [keyword [Hin H]]. apply includes_spec in H as [before [rest H]].
    now exists keyword, before, rest.
  - intros [keyword [before [rest [Hin H]]]]. exists keyword. split; [exact Hin|].
    apply includes_spec. now exists before, rest.
Qed.

(** *** Trait detection *)

Lemma detect_In (data : RedditData) (rule : Rule) (t : PersonaTrait) :
  In t (detect data rule) <->
  threshold rule < matchCount rule data /\
  t = {| trait := label rule;
         evidence := map (evidenceOf (kindOf rule) (snippetText rule)
                                     (snippetLength rule))
                         (firstn 2 (matching rule data));
         confidence := Nat.min (matchCount rule data * multiplier rule) 100 |}.
Proof.
  unfold detect. destruct (threshold rule <? matchCount rule data) eqn:E.
  - apply Nat.ltb_lt in E. simpl. split.
    + intros [H|[]]. split; [exact E | now symmetry].
    + intros [_ H]. left. now symmetry.
  - apply Nat.ltb_ge in E. simpl. split; [intros [] | intros [H _]; lia].
Qed.

Lemma label_injective (r1 r2 : Rule) :
  In r1 ruleCatalog -> In r2 ruleCatalog -> label r1 = label r2 -> r1 = r2.
Proof.
  unfold ruleCatalog. simpl.
  intros [<-|[<-|[<-|[<-|[]]]]] [<-|[<-|[<-|[<-|[]]]]] H;
    try reflexivity; simpl in H; discriminate H.
Qed.

(** A trait of the table's list comes from the rule whose label it bears. *)
Lemma trait_of_rule (data : RedditData) (rule : Rule) (t : PersonaTrait) :
  In rule ruleCatalog ->
  In t (traitsByCatalog data) -> trait t = label rule ->
  In t (detect data rule).
Proof.
  intros Hr Ht Hl. unfold traitsByCatalog in Ht.
  apply in_flat_map in Ht as [rule' [Hr' Ht']].
  assert (rule' = rule) as <-; [|exact Ht'].
  apply label_injective; try assumption.
  apply detect_In in Ht' as [_ ->]. simpl in Hl. exact Hl.
Qed.

Lemma label_detected (data : RedditData) (rule : Rule) :
  In rule ruleCatalog ->
  (In (label rule) (map trait (traitsByCatalog data))
   <-> threshold rule < matchCount rule data).
Proof.
  intros Hr. split.
  - intros H. apply in_map_iff in H as [t [Hl Ht]].
    apply (trait_of_rule data rule t Hr Ht) in Hl.
    now apply detect_In in Hl.
  - intros H. apply in_map_iff.
    eexists. split; [|unfold traitsByCatalog; apply in_flat_map; exists rule;
                      split; [exact Hr | apply detect_In; split; [exact H | reflexivity]]].
    reflexivity.
Qed.


(** C10: a detected trait has confidence at least (threshold + 1) times
    the multiplier of its rule, that is 40, 45, 40 and 48 for the four
    rules, and so never 0. *)
Theorem C10_confidence_lower_bound (u : string) (data : RedditData)
    (Hs : hasOrigins data = true) :
  map (fun rule => (label rule, (threshold rule + 1) * multiplier rule)) ruleCatalog
  = [ ("Helpful and Supportive", 40); ("Technology Enthusiast", 45);
      ("Creative and Artistic", 40); ("Thoughtful Communicator", 48) ]
  /\ exists r,
    generatePersona u data = Returns r /\
    forall t, In t (traits r) ->
      0 < confidence t
      /\ forall rule, In rule ruleCatalog -> trait t = label rule ->
           (threshold rule + 1) * multiplier rule <= confidence t.
Proof.
  split; [reflexivity|].
  destruct (traits_of_result u data Hs) as [r [Hr Ht]].
  exists r. split; [exact Hr|]. rewrite Ht.
  intros t Hin.
  assert (Hb : forall rule, In rule ruleCatalog -> trait t = label rule ->
                 (threshold rule + 1) * multiplier rule <= confidence t).
  { intros rule Hrule Hl.
    apply (trait_of_rule data rule t Hrule Hin) in Hl.
    apply detect_In in Hl as [Hlt ->]. cbn [confidence].
    unfold ruleCatalog in Hrule. simpl in Hrule.
    destruct Hrule as [<-|[<-|[<-|[<-|[]]]]];
      cbn [threshold multiplier helpfulRule techRule creativeRule thoughtfulRule] in *;
      lia. }
  split; [|exact Hb].
  unfold traitsByCatalog in Hin. apply in_flat_map in Hin as [rule [Hrule Hd]].
  assert (Hl : trait t = label rule).
  { apply detect_In in Hd as [_ ->]. reflexivity. }
  specialize (Hb rule Hrule Hl).
  unfold ruleCatalog in Hrule. simpl in Hrule.
  destruct Hrule as [<-|[<-|[<-|[<-|[]]]]];
    cbn [threshold multiplier helpfulRule techRule creativeRule thoughtfulRule] in Hb;
    lia.
Qed.

(** *** Evidence *)

Lemma length_append (s1 s2 : string) :
  String.length (s1 ++ s2) = String.length s1 + String.length s2.
Proof.
  induction s1 as [|c s1 IH]; simpl; [reflexivity | now rewrite IH].
Qed.

Lemma length_substring0 (n : nat) (s : string) :
  String.length (substring 0 n s) = Nat.min n (String.length s).
Proof.
  revert s. induction n as [|n IH]; intros s.
  - destruct s; reflexivity.
  - destruct s as [|c s]; simpl; [reflexivity | now rewrite IH].
Qed.

(** The substring kept by the code is a prefix of the text. *)
Lemma substring0_prefix (n : nat) (s : string) :
  exists rest, s = (substring 0 n s ++ rest)%string.
Proof.
  revert s. induction n as [|n IH]; intros s.
  - exists s. destruct s; reflexivity.
  - destruct s as [|c s]; simpl.
    + exists ""%string. reflexivity.
    + destruct (IH s) as [rest Hr]. exists rest. now rewrite <- Hr.
Qed.

Lemma Forall2_map_r {A B : Type} (P : A -> B -> Prop) (f : A -> B) (l : list A) :
  (forall x, In x l -> P x (f x)) -> Forall2 P l (map f l).
Proof.
  induction l as [|x l IH]; simpl; intros H; constructor.
  - apply H. now left.
  - apply IH. intros y Hy. apply H. now right.
Qed.

Lemma pool_is_suffix (data : RedditData) (rule : Rule) :
  In rule ruleCatalog -> exists before, allContent data = before ++ pool rule data.
Proof.
  unfold ruleCatalog. simpl. intros [<-|[<-|[<-|[<-|[]]]]]; simpl.
  1-3: exists []; reflexivity.
  exists (posts data). reflexivity.
Qed.

(** C6, as the code has it: the evidence of a detected trait is built from
    the first two qualifying items of its rule, in the order of the
    combined sequence (at most 2 entries); each snippet is the first 100
    code units of the item's text (150 for Thoughtful Communicator)
    followed by the marker "...", which is appended whether or not the text
    was cut; so a snippet is never longer than the rule's length plus 3. *)
Theorem C6_evidence_is_cut_and_always_marked (u : string) (data : RedditData)
    (Hs : hasOrigins data = true) :
  map (fun rule => (label rule, snippetLength rule)) ruleCatalog
  = [ ("Helpful and Supportive", 100); ("Technology Enthusiast", 100);
      ("Creative and Artistic", 100); ("Thoughtful Communicator", 150) ]
  /\ exists r,
    generatePersona u data = Returns r /\
    forall t rule, In t (traits r) -> In rule ruleCatalog -> trait t = label rule ->
      (exists before, allContent data = before ++ pool rule data)
      /\ length (evidence t) <= 2
      /\ Forall2
           (fun item e =>
              Evidence.content e
              = (substring 0 (snippetLength rule) (snippetText rule item) ++ "...")%string
              /\ String.length (Evidence.content e)
                 = Nat.min (snippetLength rule) (String.length (snippetText rule item)) + 3
              /\ String.length (Evidence.content e) <= snippetLength rule + 3)
           (firstn 2 (matching rule data)) (evidence t).
Proof.
  split; [reflexivity|].
  destruct (traits_of_result u data Hs) as [r [Hr Ht]].
  exists r. split; [exact Hr|]. rewrite Ht.
  intros t rule Hin Hrule Hl.
  apply (trait_of_rule data rule t Hrule Hin) in Hl.
  apply detect_In in Hl as [_ ->]. cbn [evidence].
  split; [now apply pool_is_suffix|]. split.
  - rewrite length_map, length_firstn. lia.
  - apply Forall2_map_r. intros item _. unfold evidenceOf. cbn [Evidence.content].
    rewrite length_append, length_substring0. simpl String.length.
    split; [reflexivity|]. lia.
Qed.


Lemma C10_witness_four_tech_comments :
  hasOrigins fourTechComments = true
  /\ exists r,
       generatePersona "kojied" fourTechComments = Returns r
       /\ forall t, In t (traits r) -> trait t = "Technology Enthusiast" ->
                    45 <= confidence t.
Proof.
  split; [reflexivity|].
  destruct (C10_confidence_lower_bound "kojied" fourTechComments eq_refl)
    as [_ [r [Hr H]]].
  exists r. split; [exact Hr|].
  intros t Hin Hl. destruct (H t Hin) as [_ Hb].
  apply (Hb techRule); [simpl; auto | exact Hl].
Defined.

Lemma C6_witness_four_help_posts :
  hasOrigins fourHelpPosts = true
  /\ exists r,
       generatePersona "kojied" fourHelpPosts = Returns r
       /\ forall t, In t (traits r) -> trait t = "Helpful and Supportive" ->
                    length (evidence t) <= 2.
Proof.
  split; [reflexivity|].
  destruct (C6_evidence_is_cut_and_always_marked "kojied" fourHelpPosts eq_refl)
    as [_ [r [Hr H]]].
  exists r. split; [exact Hr|].
  intros t Hin Hl.
  destruct (H t helpfulRule Hin) as [_ [Hlen _]]; [simpl; auto | exact Hl | exact Hlen].
Defined.

(** Four posts titled "help": the text is 4 units long, nothing is cut, and
    the snippet is "help..." all the same. *)
Lemma C6_counterexample_marker_without_cut :
  generatePersona "kojied" fourHelpPosts = Returns (activePersona "kojied" fourHelpPosts)
  /\ map Evidence.content
         (flat_map evidence (traits (activePersona "kojied" fourHelpPosts)))
     = ["help..."%string; "help..."%string]
  /\ ~ evidenceMarkedOnlyWhenCut fourHelpPosts (activePersona "kojied" fourHelpPosts).
Proof.
  split; [reflexivity|]. split; [reflexivity|].
  intros H.
  specialize (H _ helpfulRule (or_introl eq_refl) (or_introl eq_refl) eq_refl).
  vm_compute in H. discriminate H.
Qed.

(** *** The degenerate persona *)

(** C2, evaluated: for no post and no comment the function returns at once
    the summary "No public posts or comments found for analysis.", an
    empty trait list and the engagement record with three zeros; the
    returned object has no [interests] property at all (and no
    [mostActiveSubreddits]), where the claim has an empty list. *)
Theorem C2_empty_input_result (u : string) :
  generatePersona u noActivity
  = Returns {| username := u;
               summary := "No public posts or comments found for analysis.";
               interests := None;
               traits := [];
               engagement := {| totalPosts := 0; totalComments := 0;
                                avgScore := 0%float;
                                mostActiveSubreddits := None |} |}
  /\ interests (emptyPersona u) <> Some [].
Proof.
  split; [reflexivity | discriminate].
Qed.

(** *** Missing fields *)

(** C3, evaluated: a post with a title, a body and a score but no
    subreddit makes the function throw a TypeError. *)
Theorem C3_missing_subreddit_throws (u : string) :
  generatePersona u postWithoutSubreddit = Throws TypeError.
Proof.
  reflexivity.
Qed.

(** Missing or null titles, bodies and scores never make it throw. *)
Lemma other_fields_may_be_missing (u : string) (data : RedditData) :
  (forall item, In item (allContent data) -> exists s, subreddit item = val s) ->
  exists r, generatePersona u data = Returns r.
Proof.
  intros H. apply generatePersona_returns_iff.
  unfold hasOrigins. apply forallb_forall. intros item Hin.
  destruct (H item Hin) as [s Hsub]. unfold hasSubreddit. now rewrite Hsub.
Qed.

(** *** Engagement *)

(** C4, as the code has it: the two totals add up to the number of items;
    the average is 0 for the empty input (and not only there); for a
    non-empty input it is [Math.round(mean * 100) / 100], where the mean is
    the sum of the scores (a missing score counting 0) divided by the number
    of items, every step in double arithmetic. *)
Theorem C4_totals_and_rounded_mean (u : string) (data : RedditData)
    (Hs : hasOrigins data = true) :
  exists r,
    generatePersona u data = Returns r
    /\ totalPosts (engagement r) + totalComments (engagement r)
       = length (allContent data)
    /\ (allContent data = [] -> avgScore (engagement r) = 0%float)
    /\ (allContent data <> [] ->
        avgScore (engagement r)
        = (Math_round
             (fold_left (fun sum item => sum + numberOrZero (score item))
                        (allContent data) 0
              / floatOfNat (length (allContent data)) * 100) / 100)%float).
Proof.
  destruct (allContent data) eqn:E.
  - exists (emptyPersona u). split; [now apply generatePersona_empty|].
    split; [reflexivity|]. split; [reflexivity|]. intros H. now contradiction H.
  - exists (activePersona u data). split.
    { apply generatePersona_active; [|exact Hs]. rewrite E. discriminate. }
    split.
    { cbn [engagement totalPosts totalComments activePersona].
      rewrite <- E. unfold allContent. now rewrite length_app. }
    split; [discriminate|]. intros _.
    cbn [engagement avgScore activePersona].
    unfold roundToHundredths, meanScoreOf, totalScoreOf. rewrite E. reflexivity.
Qed.

(** Eight posts, one of them scored 1: the mean 0.125 is a tie between 0.12
    and 0.13, and goes up. *)
Lemma C4_witness_tie_goes_up :
  hasOrigins eightPosts = true
  /\ exists r,
       generatePersona "kojied" eightPosts = Returns r
       /\ totalPosts (engagement r) + totalComments (engagement r) = 8
       /\ avgScore (engagement r) = (13 / 100)%float.
Proof.
  split; [reflexivity|].
  destruct (C4_totals_and_rounded_mean "kojied" eightPosts eq_refl)
    as [r [Hr [Ht [_ Ha]]]].
  exists r. split; [exact Hr|]. split; [exact Ht|].
  rewrite Ha; [reflexivity | discriminate].
Defined.

(** One post scored 0: the input is not empty and the average is 0. *)
Lemma C4_counterexample_zero_average_nonempty :
  generatePersona "kojied" oneUnvotedPost
  = Returns (activePersona "kojied" oneUnvotedPost)
  /\ allContent oneUnvotedPost <> []
  /\ avgScore (engagement (activePersona "kojied" oneUnvotedPost)) = 0%float
  /\ ~ (avgScore (engagement (activePersona "kojied" oneUnvotedPost)) = 0%float
        <-> allContent oneUnvotedPost = []).
Proof.
  split; [reflexivity|]. split; [discriminate|]. split; [reflexivity|].
  intros [H _]. specialize (H eq_refl). discriminate H.
Qed.

(** Forty posts whose scores add up to 23: the mean is 0.575 and rounding
    half up to two decimals gives 0.58 (58 hundredths); the doubles give
    23 / 40 * 100 = 57.49999999999999 and the code returns 0.57. *)
Lemma avgScore_below_the_exact_tie :
  generatePersona "kojied" fortyPosts = Returns (activePersona "kojied" fortyPosts)
  /\ length (allContent fortyPosts) = 40
  /\ totalScoreOf fortyPosts = 23%float
  /\ ((2 * (100 * 23) + 40) / (2 * 40) = 58)%Z
  /\ avgScore (engagement (activePersona "kojied" fortyPosts)) = (57 / 100)%float
  /\ (57 / 100 <> 58 / 100)%float.
Proof.
  split; [reflexivity|]. split; [reflexivity|]. split; [reflexivity|].
  split; [reflexivity|]. split; [reflexivity|].
  intros H. vm_compute in H. discriminate H.
Qed.

(** *** The report renderer *)

Section RendererFacts.

Local Open Scope string_scope.

Lemma append_assoc (a b c : string) : (a ++ b) ++ c = a ++ (b ++ c).
Proof.
  induction a as [|x a IH]; simpl; [reflexivity | now rewrite IH].
Qed.

Lemma append_inv_head (a s1 s2 : string) : a ++ s1 = a ++ s2 -> s1 = s2.
Proof.
  induction a as [|x a IH]; simpl; intros H; [exact H|].
  injection H as H. now apply IH.
Qed.

Lemma append_inv_tail (s1 s2 rest : string) : s1 ++ rest = s2 ++ rest -> s1 = s2.
Proof.
  revert s2. induction s1 as [|x s1 IH]; intros [|y s2] H; simpl in H.
  - reflexivity.
  - apply (f_equal String.length) in H. simpl in H.
    rewrite length_append in H. lia.
  - apply (f_equal String.length) in H. simpl in H.
    rewrite length_append in H. lia.
  - injection H as -> H. f_equal. now apply IH.
Qed.

(** A loop whose body only appends a line appends the lines in order. *)
Lemma forEachFrom_appends {A : Type} (step : string -> A -> nat -> string)
    (line : A -> nat -> string) (l : list A) :
  (forall text x index, step text x index = text ++ line x index) ->
  forall index text,
    forEachFrom step l index text = text ++ linesFrom line l index.
Proof.
  intros Hstep. induction l as [|x l IH]; intros index text; simpl.
  - clear. induction text as [|c text IH]; simpl; [reflexivity | now rewrite <- IH].
  - rewrite IH, Hstep. apply append_assoc.
Qed.

(** The renderer's output is the sequence of its sections. *)
Lemma formatPersonaAsText_sections (isoNow : string) (persona : PersonaResult) :
  formatPersonaAsText isoNow persona
  = titleBanner ++ usernameLine persona ++ timestampLine isoNow
    ++ summarySection persona ++ interestsSection persona
    ++ traitsSection persona ++ engagementTotals persona
    ++ mostActiveLine persona ++ footer.
Proof.
  unfold formatPersonaAsText, titleBanner, usernameLine, timestampLine,
    summarySection, interestsSection, traitsSection, engagementTotals,
    mostActiveLine, footer, forEach.
  cbv zeta.
  assert (Hev : forall (l : list Evidence.t) text,
             forEachFrom
               (fun text evidence (_ : nat) =>
                  text ++ ("   - [" ++ Evidence.type evidence ++ " in r/"
                           ++ fieldToString (Evidence.subreddit evidence)
                           ++ "] " ++ Evidence.content evidence ++ nl))
               l 0 text
             = text ++ linesFrom evidenceLine l 0).
  { intros l text. apply forEachFrom_appends. reflexivity. }
  assert (Htr : forall (l : list PersonaTrait) text,
             forEachFrom
               (fun text trait' index =>
                  forEachFrom
                    (fun text evidence (_ : nat) =>
                       text ++ ("   - [" ++ Evidence.type evidence ++ " in r/"
                                ++ fieldToString (Evidence.subreddit evidence)
                                ++ "] " ++ Evidence.content evidence ++ nl))
                    (evidence trait') 0
                    ((text ++ (natToString (index + 1) ++ ". " ++ trait trait'
                               ++ " (" ++ natToString (confidence trait')
                               ++ "% confidence)" ++ nl))
                     ++ ("   Evidence:" ++ nl))
                  ++ nl)
               l 0 text
             = text ++ linesFrom traitBlock l 0).
  { intros l text. apply forEachFrom_appends. intros t x i.
    rewrite Hev. unfold traitBlock. rewrite !append_assoc. reflexivity. }
  assert (Hin : forall (l : list Interest.t) text,
             forEachFrom
               (fun text interest index =>
                  text ++ (natToString (index + 1) ++ ". r/"
                           ++ Interest.subreddit interest ++ " ("
                           ++ counterToString (Interest.count interest)
                           ++ " posts/comments)" ++ nl))
               l 0 text
             = text ++ linesFrom interestLine l 0).
  { intros l text. apply forEachFrom_appends. reflexivity. }
  destruct (interests persona) as [[|i li]|];
    destruct (traits persona) as [|t lt];
    destruct (mostActiveSubreddits (engagement persona)) as [top|];
    rewrite ?Hin, ?Htr, !append_assoc; reflexivity.
Qed.

(** C7, as the code has it: the text is a function of the PersonaResult
    and of the clock reading made during the call; two renderings of the
    same PersonaResult are identical exactly when the two timestamps
    are. *)
Theorem C7_same_text_iff_same_timestamp (persona : PersonaResult)
    (isoFirst isoSecond : string) :
  formatPersonaAsText isoFirst persona
  = formatPersonaAsText isoSecond persona
  <-> isoFirst = isoSecond.
Proof.
  split; [|now intros ->].
  rewrite !formatPersonaAsText_sections. unfold timestampLine.
  intros H.
  apply append_inv_head in H. apply append_inv_head in H.
  rewrite !append_assoc in H. apply append_inv_head in H.
  now apply append_inv_tail in H.
Qed.

(** C8: the report is the title banner, the username line, the timestamp
    line, the summary, the engagement totals and the footer, with three
    optional pieces in between: the TOP INTERESTS section, left out
    exactly when the interests list is absent or empty; the PERSONALITY
    TRAITS section, left out exactly when the trait list is empty; and
    the "Most Active Subreddits:" line, left out exactly when the
    engagement record has no such field. *)
Theorem C8_sections_omitted_when_empty (isoNow : string) (persona : PersonaResult) :
  formatPersonaAsText isoNow persona
  = titleBanner ++ usernameLine persona ++ timestampLine isoNow
    ++ summarySection persona ++ interestsSection persona
    ++ traitsSection persona ++ engagementTotals persona
    ++ mostActiveLine persona ++ footer
  /\ (interestsSection persona = ""
      <-> interests persona = None \/ interests persona = Some [])
  /\ (traitsSection persona = "" <-> traits persona = [])
  /\ (mostActiveLine persona = ""
      <-> mostActiveSubreddits (engagement persona) = None)
  /\ titleBanner <> "" /\ usernameLine persona <> ""
  /\ timestampLine isoNow <> "" /\ summarySection persona <> ""
  /\ engagementTotals persona <> "" /\ footer <> "".
Proof.
  split; [apply formatPersonaAsText_sections|].
  unfold interestsSection, traitsSection, mostActiveLine.
  repeat split; try discriminate.
  - destruct (interests persona) as [[|i l]|]; auto. discriminate.
  - intros [-> | ->]; reflexivity.
  - destruct (traits persona); [reflexivity | discriminate].
  - intros ->. reflexivity.
  - destruct (mostActiveSubreddits (engagement persona)); [discriminate | reflexivity].
  - intros ->. reflexivity.
Qed.

End RendererFacts.

(** *** Sorted lists *)

Section SortedFacts.

Context {A : Type}.

Lemma sorted_app (R : A -> A -> Prop) (l1 l2 : list A) :
  StronglySorted R l1 -> StronglySorted R l2 ->
  (forall a b, In a l1 -> In b l2 -> R a b) ->
  StronglySorted R (l1 ++ l2).
Proof.
  induction l1 as [|x l1 IH]; simpl; intros H1 H2 Hc; [exact H2|].
  apply StronglySorted_inv in H1 as [H1 Hx].
  constructor.
  - apply IH; auto.
  - apply Forall_app. split; [exact Hx|].
    apply Forall_forall. intros b Hb. apply Hc; auto.
Qed.

Lemma sorted_weaken (R R' : A -> A -> Prop) (l : list A) :
  (forall a b, In a l -> In b l -> R a b -> R' a b) ->
  StronglySorted R l -> StronglySorted R' l.
Proof.
  induction l as [|x l IH]; intros Himp H; [constructor|].
  apply StronglySorted_inv in H as [H Hx].
  constructor.
  - apply IH; [|exact H]. intros a b Ha Hb. apply Himp; now right.
  - rewrite Forall_forall in *. intros b Hb.
    apply Himp; [now left | now right | now apply Hx].
Qed.

Lemma sorted_filter (R : A -> A -> Prop) (f : A -> bool) (l : list A) :
  StronglySorted R l -> StronglySorted R (filter f l).
Proof.
  induction l as [|x l IH]; simpl; intros H; [constructor|].
  apply StronglySorted_inv in H as [H Hx].
  destruct (f x); [|now apply IH].
  constructor; [now apply IH|].
  rewrite Forall_forall in *. intros b Hb.
  apply filter_In in Hb as [Hb _]. now apply Hx.
Qed.

Lemma sorted_firstn (R : A -> A -> Prop) (n : nat) (l : list A) :
  StronglySorted R l -> StronglySorted R (firstn n l).
Proof.
  revert l. induction n as [|n IH]; intros [|x l] H; simpl; try constructor.
  - apply IH. now apply StronglySorted_inv in H.
  - apply StronglySorted_inv in H as [_ Hx].
    rewrite Forall_forall in *. intros b Hb. apply Hx.
    rewrite <- (firstn_skipn n l). apply in_or_app. now left.
Qed.

Lemma sorted_map {B : Type} (R : B -> B -> Prop) (f : A -> B) (l : list A) :
  StronglySorted (fun a b => R (f a) (f b)) l <-> StronglySorted R (map f l).
Proof.
  induction l as [|x l IH]; simpl; split; intros H; try constructor;
    apply StronglySorted_inv in H as [H Hx].
  - now apply IH.
  - rewrite Forall_forall in *. intros b Hb.
    apply in_map_iff in Hb as [a [<- Ha]]. now apply Hx.
  - now apply IH.
  - rewrite Forall_forall in *. intros a Ha. apply Hx. now apply in_map.
Qed.

(** In a sorted list without repetition a later element differs from an
    earlier one. *)
Lemma sorted_distinct {B : Type} (f : A -> B) (R : A -> A -> Prop) (l : list A) :
  NoDup (map f l) -> StronglySorted R l ->
  StronglySorted (fun a b => R a b /\ f a <> f b) l.
Proof.
  induction l as [|x l IH]; simpl; intros Hnd H; [constructor|].
  apply NoDup_cons_iff in Hnd as [Hx Hnd].
  apply StronglySorted_inv in H as [H Hall].
  constructor; [now apply IH|].
  rewrite Forall_forall in *. intros b Hb. split; [now apply Hall|].
  intros Heq. apply Hx. rewrite Heq. now apply in_map.
Qed.

(** A strict order sorts without repetition. *)
Lemma sorted_NoDup (R : A -> A -> Prop) (l : list A) :
  (forall a, ~ R a a) -> StronglySorted R l -> NoDup l.
Proof.
  intros Hirr. induction l as [|x l IH]; intros H; constructor;
    apply StronglySorted_inv in H as [H Hx].
  - intros Hin. rewrite Forall_forall in Hx. exact (Hirr x (Hx x Hin)).
  - now apply IH.
Qed.

Lemma filter_split_permutation (f : A -> bool) (l : list A) :
  Permutation (filter f l ++ filter (fun x => negb (f x)) l) l.
Proof.
  induction l as [|x l IH]; simpl; [constructor|].
  destruct (f x); simpl.
  - now constructor.
  - apply Permutation_sym, Permutation_cons_app, Permutation_sym, IH.
Qed.

(** *** [Array.prototype.sort] *)

Variable cmp : A -> A -> option Z.

Lemma insertSorted_permutation (x : A) (l : list A) :
  Permutation (insertSorted cmp x l) (x :: l).
Proof.
  induction l as [|y l IH]; simpl; [constructor; constructor|].
  destruct (sortCompare cmp y x <? 0)%Z; [|reflexivity].
  rewrite perm_swap. now constructor.
Qed.

Lemma Array_sort_permutation (l : list A) : Permutation (Array_sort cmp l) l.
Proof.
  induction l as [|x l IH]; simpl; [constructor|].
  rewrite insertSorted_permutation. now constructor.
Qed.

Lemma Array_sort_length (l : list A) : length (Array_sort cmp l) = length l.
Proof. apply Permutation_length, Array_sort_permutation. Qed.

(** The comparator orders by a rank, larger ranks first. *)
Variable rank : A -> nat.
Variable before : A -> A -> Prop.

Lemma insertSorted_stable (x : A) (l : list A) :
  (forall y, In y l -> (sortCompare cmp y x <? 0)%Z = (rank x <? rank y)) ->
  Forall (before x) l ->
  StronglySorted (rankedBefore rank before) l ->
  StronglySorted (rankedBefore rank before) (insertSorted cmp x l).
Proof.
  induction l as [|y l IH]; simpl; intros Hc Hb Hs.
  - constructor; constructor.
  - apply StronglySorted_inv in Hs as [Hs Hy].
    rewrite (Hc y (or_introl eq_refl)).
    destruct (rank x <? rank y) eqn:E.
    + apply Nat.ltb_lt in E. constructor.
      * apply IH; auto. now inversion Hb.
      * apply (Permutation_Forall (Permutation_sym (insertSorted_permutation x l))).
        constructor; [left; lia | exact Hy].
    + apply Nat.ltb_ge in E. constructor.
      * now constructor.
      * rewrite Forall_forall in *. intros z Hz.
        assert (Hxz : before x z) by now apply Hb.
        destruct Hz as [<-|Hz].
        -- unfold rankedBefore. destruct (Nat.eq_dec (rank x) (rank y)); [now right | left; lia].
        -- specialize (Hy z Hz). unfold rankedBefore in *.
           destruct (Nat.eq_dec (rank x) (rank z)); [now right | left; lia].
Qed.

(** Stability: elements of equal rank keep the order they came in. *)
Lemma Array_sort_stable (l : list A) :
  (forall x y, In x l -> In y l ->
               (sortCompare cmp y x <? 0)%Z = (rank x <? rank y)) ->
  StronglySorted before l ->
  StronglySorted (rankedBefore rank before) (Array_sort cmp l).
Proof.
  induction l as [|x l IH]; simpl; intros Hc Hs; [constructor|].
  apply StronglySorted_inv in Hs as [Hs Hx].
  apply insertSorted_stable.
  - intros y Hy. apply Hc; [now left | right].
    now apply (Permutation_in _ (Array_sort_permutation l)).
  - now apply (Permutation_Forall (Permutation_sym (Array_sort_permutation l))).
  - apply IH; [|exact Hs]. intros a b Ha Hb. apply Hc; now right.
Qed.

End SortedFacts.

(** *** The counter object *)

Lemma firstIndex_app_in (k : string) (l l' : list string) :
  In k l -> firstIndex k (l ++ l') = firstIndex k l.
Proof.
  induction l as [|x l IH]; simpl; intros H; [contradiction|].
  destruct (x =? k)%string eqn:E; [reflexivity|].
  apply String.eqb_neq in E. destruct H as [H|H]; [contradiction|].
  now rewrite IH.
Qed.

Lemma firstIndex_lt (k : string) (l : list string) :
  In k l -> firstIndex k l < length l.
Proof.
  induction l as [|x l IH]; simpl; intros H; [contradiction|].
  destruct (x =? k)%string eqn:E; [lia|].
  apply String.eqb_neq in E. destruct H as [H|H]; [contradiction|].
  apply IH in H. lia.
Qed.

Lemma firstIndex_absent (k : string) (l l' : list string) :
  ~ In k l -> firstIndex k (l ++ l') = length l + firstIndex k l'.
Proof.
  induction l as [|x l IH]; simpl; intros H; [reflexivity|].
  destruct (x =? k)%string eqn:E.
  - apply String.eqb_eq in E. exfalso. apply H. now left.
  - rewrite IH; [reflexivity|]. intros Hin. apply H. now right.
Qed.

Lemma getOwn_None (obj : JsObject) (k : string) :
  getOwn obj k = None <-> ~ In k (map fst obj).
Proof.
  induction obj as [|[k' v] obj IH]; simpl; [tauto|].
  destruct (k' =? k)%string eqn:E.
  - apply String.eqb_eq in E. split; [discriminate | intros H; exfalso; apply H; now left].
  - apply String.eqb_neq in E. rewrite IH. tauto.
Qed.

Lemma getOwn_In (obj : JsObject) (k : string) (v : Counter) :
  getOwn obj k = Some v -> In (k, v) obj.
Proof.
  induction obj as [|[k' v'] obj IH]; simpl; [discriminate|].
  destruct (k' =? k)%string eqn:E.
  - apply String.eqb_eq in E. intros [= <-]. left. now subst.
  - intros H. right. now apply IH.
Qed.

Lemma In_getOwn (obj : JsObject) (k : string) (v : Counter) :
  NoDup (map fst obj) -> In (k, v) obj -> getOwn obj k = Some v.
Proof.
  induction obj as [|[k' v'] obj IH]; simpl; intros Hnd H; [contradiction|].
  apply NoDup_cons_iff in Hnd as [Hk Hnd].
  destruct H as [[= -> ->]|H].
  - now rewrite String.eqb_refl.
  - destruct (k' =? k)%string eqn:E; [|now apply IH].
    apply String.eqb_eq in E. subst k'. exfalso. apply Hk.
    apply in_map_iff. now exists (k, v).
Qed.

Lemma getOwn_setOwn (obj : JsObject) (k k' : string) (v : Counter) :
  getOwn (setOwn obj k v) k' = if (k =? k')%string then Some v else getOwn obj k'.
Proof.
  induction obj as [|[k0 v0] obj IH]; simpl.
  - reflexivity.
  - destruct (k0 =? k)%string eqn:E0; simpl.
    + apply String.eqb_eq in E0. subst k0.
      destruct (k =? k')%string; reflexivity.
    + rewrite IH. destruct (k0 =? k')%string eqn:E1; [|reflexivity].
      apply String.eqb_eq in E1. subst k0.
      rewrite String.eqb_sym, E0. reflexivity.
Qed.

Lemma keys_setOwn_present (obj : JsObject) (k : string) (v : Counter) :
  In k (map fst obj) -> map fst (setOwn obj k v) = map fst obj.
Proof.
  induction obj as [|[k0 v0] obj IH]; simpl; intros H; [contradiction|].
  destruct (k0 =? k)%string eqn:E; simpl; [reflexivity|].
  apply String.eqb_neq in E. destruct H as [H|H]; [contradiction|].
  now rewrite IH.
Qed.

Lemma keys_setOwn_absent (obj : JsObject) (k : string) (v : Counter) :
  ~ In k (map fst obj) -> map fst (setOwn obj k v) = map fst obj ++ [k].
Proof.
  induction obj as [|[k0 v0] obj IH]; simpl; intros H; [reflexivity|].
  destruct (k0 =? k)%string eqn:E; simpl.
  - apply String.eqb_eq in E. exfalso. apply H. now left.
  - rewrite IH; [reflexivity|]. intros Hin. apply H. now right.
Qed.

Lemma objectPrototypeKeys_split :
  objectPrototypeKeys = inheritedMethods ++ ["__proto__"%string].
Proof. reflexivity. Qed.

Lemma inherited_lookup (k : string) :
  existsb (String.eqb k) objectPrototypeKeys
  = isInheritedMethod k || (k =? "__proto__")%string.
Proof.
  rewrite objectPrototypeKeys_split, existsb_app. unfold isInheritedMethod.
  simpl existsb at 2. now rewrite orb_false_r.
Qed.

Lemma count_occ_snoc (l : list string) (k k' : string) :
  count_occ string_dec (l ++ [k]) k'
  = count_occ string_dec l k' + (if string_dec k k' then 1 else 0).
Proof.
  rewrite count_occ_app. simpl. destruct (string_dec k k'); reflexivity.
Qed.

(** What the counting loop has built after the keys [ks]: the object holds
    exactly the keys met, [__proto__] apart; they are in first-met order;
    and under a key that is no inherited method name the value is the
    number of times the key was met. *)
Lemma counting_invariant (ks : list string) :
  let obj := fold_left countKey ks [] in
  (forall k, In k (map fst obj) <-> In k ks /\ k <> "__proto__"%string)
  /\ StronglySorted (firstSeenBefore ks) (map fst obj)
  /\ (forall k, isInheritedMethod k = false -> In k (map fst obj) ->
                getOwn obj k = Some (Num (count_occ string_dec ks k))).
Proof.
  induction ks as [|k ks IH] using rev_ind; cbv zeta.
  { simpl. split; [tauto|]. split; [constructor | contradiction]. }
  cbv zeta in IH. destruct IH as [Hkeys [Hord Hval]].
  rewrite fold_left_app. simpl fold_left.
  set (obj := fold_left countKey ks []) in *.
  assert (Hmono : forall a b, In a (map fst obj) -> In b (map fst obj) ->
                   firstSeenBefore ks a b -> firstSeenBefore (ks ++ [k]) a b).
  { intros a b Ha Hb. unfold firstSeenBefore.
    apply Hkeys in Ha as [Ha _]. apply Hkeys in Hb as [Hb _].
    now rewrite !firstIndex_app_in. }
  unfold countKey, assign.
  destruct (k =? "__proto__")%string eqn:Eproto.
  - (* the assignment is dropped *)
    apply String.eqb_eq in Eproto. subst k. split; [|split].
    + intros k. rewrite Hkeys, in_app_iff. simpl. intuition congruence.
    + now apply (sorted_weaken (firstSeenBefore ks)).
    + intros k Hm Hin. rewrite (Hval k Hm Hin), count_occ_snoc.
      apply Hkeys in Hin as [_ Hne].
      destruct (string_dec "__proto__" k); [congruence|]. now rewrite Nat.add_0_r.
  - apply String.eqb_neq in Eproto.
    destruct (in_dec string_dec k (map fst obj)) as [Hin|Hnin].
    + (* a key already there: its value changes, the keys do not *)
      rewrite (keys_setOwn_present _ _ _ Hin). split; [|split].
      * intros k'. rewrite Hkeys, in_app_iff. simpl.
        apply Hkeys in Hin as [Hin _]. intuition (subst; auto).
      * now apply (sorted_weaken (firstSeenBefore ks)).
      * intros k' Hm Hin'. rewrite getOwn_setOwn, count_occ_snoc.
        destruct (k =? k')%string eqn:E.
        -- apply String.eqb_eq in E. subst k'.
           unfold plusOne. rewrite (Hval k Hm Hin).
           destruct (string_dec k k); [|congruence].
           assert (Hpos : count_occ string_dec ks k > 0).
           { apply count_occ_In. now apply Hkeys in Hin as [Hin _]. }
           destruct (count_occ string_dec ks k =? 0) eqn:E0;
             [apply Nat.eqb_eq in E0; lia | reflexivity].
        -- apply String.eqb_neq in E. rewrite (Hval k' Hm Hin').
           destruct (string_dec k k'); [congruence|]. now rewrite Nat.add_0_r.
    + (* a new key: appended *)
      assert (Hnew : ~ In k ks).
      { intros H. apply Hnin, Hkeys. now split. }
      rewrite (keys_setOwn_absent _ _ _ Hnin). split; [|split].
      * intros k'. rewrite !in_app_iff, Hkeys. simpl. intuition (subst; auto).
      * apply sorted_app.
        -- now apply (sorted_weaken (firstSeenBefore ks)).
        -- constructor; constructor.
        -- intros a b Ha [<-|[]]. unfold firstSeenBefore.
           apply Hkeys in Ha as [Ha _].
           rewrite (firstIndex_app_in _ _ _ Ha), (firstIndex_absent _ _ _ Hnew).
           apply firstIndex_lt in Ha. lia.
      * intros k' Hm Hin'. rewrite getOwn_setOwn, count_occ_snoc.
        destruct (k =? k')%string eqn:E.
        -- apply String.eqb_eq in E. subst k'.
           unfold plusOne. apply getOwn_None in Hnin. rewrite Hnin.
           rewrite inherited_lookup, Hm.
           apply String.eqb_neq in Eproto. rewrite Eproto. simpl.
           destruct (string_dec k k); [|congruence].
           rewrite (proj1 (count_occ_not_In string_dec ks k) Hnew). reflexivity.
        -- apply String.eqb_neq in E.
           apply in_app_iff in Hin' as [Hin'|[Hin'|[]]]; [|congruence].
           rewrite (Hval k' Hm Hin').
           destruct (string_dec k k'); [congruence|]. now rewrite Nat.add_0_r.
Qed.

Lemma subredditCounts_by_key (data : RedditData) :
  subredditCountsOf data = fold_left countKey (origins data) [].
Proof.
  unfold subredditCountsOf, origins. generalize (@nil (string * Counter)).
  induction (allContent data) as [|item l IH]; intros obj; simpl; [reflexivity|].
  now rewrite IH.
Qed.

(** *** Array-index keys *)

Lemma digitOf_bound (c : ascii) (d : N) : digitOf c = Some d -> (d <= 9)%N.
Proof.
  unfold digitOf.
  destruct ((48 <=? N_of_ascii c) && (N_of_ascii c <=? 57))%N eqn:E; [|discriminate].
  apply andb_true_iff in E as [E1 E2].
  apply N.leb_le in E1, E2. intros [= <-]. lia.
Qed.

Lemma digitOf_injective (c1 c2 : ascii) (d : N) :
  digitOf c1 = Some d -> digitOf c2 = Some d -> c1 = c2.
Proof.
  unfold digitOf.
  destruct ((48 <=? N_of_ascii c1) && (N_of_ascii c1 <=? 57))%N eqn:E1; [|discriminate].
  destruct ((48 <=? N_of_ascii c2) && (N_of_ascii c2 <=? 57))%N eqn:E2; [|discriminate].
  apply andb_true_iff in E1 as [E1 _]. apply andb_true_iff in E2 as [E2 _].
  apply N.leb_le in E1, E2. intros [= <-] [= H].
  rewrite <- (ascii_N_embedding c1), <- (ascii_N_embedding c2).
  f_equal. lia.
Qed.

(** The digits read after [acc] fill the places below it. *)
Lemma parseDigits_bounds (s : string) (acc v : N) :
  parseDigits s acc = Some v ->
  (acc * 10 ^ N.of_nat (String.length s) <= v
   < (acc + 1) * 10 ^ N.of_nat (String.length s))%N.
Proof.
  revert acc. induction s as [|c s IH]; intros acc; cbn [parseDigits].
  - intros [= <-]. simpl. lia.
  - destruct (digitOf c) as [d|] eqn:Ed; [|discriminate].
    intros H. apply IH in H. apply digitOf_bound in Ed.
    cbn [String.length]. rewrite Nat2N.inj_succ, N.pow_succ_r'.
    set (P := (10 ^ N.of_nat (String.length s))%N) in *.
    assert (d * P <= 9 * P)%N by now apply N.mul_le_mono_r.
    replace ((10 * acc + d) * P)%N with (10 * (acc * P) + d * P)%N in H by ring.
    replace ((10 * acc + d + 1) * P)%N with (10 * (acc * P) + d * P + P)%N in H by ring.
    replace (acc * (10 * P))%N with (10 * (acc * P))%N by ring.
    replace ((acc + 1) * (10 * P))%N with (10 * (acc * P) + 10 * P)%N by ring.
    lia.
Qed.

Lemma parseDigits_injective (s1 s2 : string) (a1 a2 v : N) :
  String.length s1 = String.length s2 ->
  parseDigits s1 a1 = Some v -> parseDigits s2 a2 = Some v ->
  a1 = a2 /\ s1 = s2.
Proof.
  revert s2 a1 a2. induction s1 as [|c1 s1 IH]; intros [|c2 s2] a1 a2 Hlen;
    try discriminate Hlen; cbn [parseDigits].
  - intros [= <-] [= <-]. now split.
  - destruct (digitOf c1) as [d1|] eqn:E1; [|discriminate].
    destruct (digitOf c2) as [d2|] eqn:E2; [|discriminate].
    intros H1 H2. injection Hlen as Hlen.
    destruct (IH s2 _ _ Hlen H1 H2) as [Ha ->].
    pose proof (digitOf_bound _ _ E1). pose proof (digitOf_bound _ _ E2).
    assert (a1 = a2) by lia. subst a2.
    assert (d1 = d2) by lia. subst d2.
    now rewrite (digitOf_injective _ _ _ E1 E2).
Qed.

(** An array index is written in one way only. *)
Lemma canonical_digits (k : string) (n : N) :
  arrayIndex k = Some n ->
  (k = "0"%string /\ n = 0%N)
  \/ (parseDigits k 0 = Some n
      /\ (10 ^ N.of_nat (String.length k - 1) <= n)%N
      /\ k <> ""%string).
Proof.
  unfold arrayIndex. destruct k as [|c k]; [discriminate|].
  assert (Hgen : match parseDigits (String c k) 0 with
                 | Some n0 => if (n0 <=? 4294967294)%N then Some n0 else None
                 | None => None
                 end = Some n ->
                 c <> "0"%char ->
                 parseDigits (String c k) 0 = Some n
                 /\ (10 ^ N.of_nat (String.length (String c k) - 1) <= n)%N
                 /\ String c k <> ""%string).
  { intros H Hc. destruct (parseDigits (String c k) 0) as [n0|] eqn:Ep; [|discriminate].
    destruct (n0 <=? 4294967294)%N; [|discriminate]. injection H as <-.
    split; [reflexivity|]. split; [|discriminate].
    cbn [parseDigits] in Ep. destruct (digitOf c) as [d|] eqn:Ed; [|discriminate].
    apply parseDigits_bounds in Ep.
    assert (d <> 0)%N.
    { intros ->. apply Hc. apply (digitOf_injective c "0"%char 0%N Ed). reflexivity. }
    cbn [String.length]. rewrite Nat.sub_succ, Nat.sub_0_r. nia. }
  destruct (Ascii.eqb c "0") eqn:Ec.
  - apply Ascii.eqb_eq in Ec. subst c. destruct k; [intros [= <-]; now left | discriminate].
  - apply Ascii.eqb_neq in Ec. intros H. right. apply Hgen; [|exact Ec].
    destruct c as [[] [] [] [] [] [] [] []]; try exact H; congruence.
Qed.

Lemma arrayIndex_injective (k1 k2 : string) (n : N) :
  arrayIndex k1 = Some n -> arrayIndex k2 = Some n -> k1 = k2.
Proof.
  intros H1 H2.
  apply canonical_digits in H1 as [[-> ->]|[P1 [L1 N1]]];
    apply canonical_digits in H2 as [[-> H2]|[P2 [L2 N2]]]; try reflexivity.
  - assert (1 <= 10 ^ N.of_nat (String.length k2 - 1))%N
      by (apply N.lt_pred_le, N.neq_0_lt_0, N.pow_nonzero; discriminate).
    lia.
  - subst n.
    assert (1 <= 10 ^ N.of_nat (String.length k1 - 1))%N
      by (apply N.lt_pred_le, N.neq_0_lt_0, N.pow_nonzero; discriminate).
    lia.
  - pose proof (parseDigits_bounds _ _ _ P1) as B1.
    pose proof (parseDigits_bounds _ _ _ P2) as B2.
    rewrite N.mul_0_l, N.add_0_l, N.mul_1_l in B1, B2.
    assert (Hlen : String.length k1 = String.length k2).
    { destruct k1 as [|c1 k1]; [congruence|]. destruct k2 as [|c2 k2]; [congruence|].
      cbn [String.length] in *. rewrite Nat.sub_succ, Nat.sub_0_r in L1, L2.
      destruct (Nat.lt_trichotomy (String.length k1) (String.length k2)) as [Hlt|[Heq|Hgt]].
      - exfalso.
        assert (10 ^ N.of_nat (S (String.length k1)) <= 10 ^ N.of_nat (String.length k2))%N
          by (apply N.pow_le_mono_r; [discriminate | lia]).
        lia.
      - now rewrite Heq.
      - exfalso.
        assert (10 ^ N.of_nat (S (String.length k2)) <= 10 ^ N.of_nat (String.length k1))%N
          by (apply N.pow_le_mono_r; [discriminate | lia]).
        lia. }
    now destruct (parseDigits_injective _ _ _ _ _ Hlen P1 P2).
Qed.

(** *** [Object.entries] *)

Lemma insertIndexed_permutation {V : Type} (e : string * V) (l : list (string * V)) :
  Permutation (insertIndexed e l) (e :: l).
Proof.
  induction l as [|e' l IH]; simpl; [constructor; constructor|].
  destruct (indexOf (fst e) <=? indexOf (fst e'))%N; [reflexivity|].
  rewrite perm_swap. now constructor.
Qed.

Lemma sortIndexed_permutation {V : Type} (l : list (string * V)) :
  Permutation (fold_right insertIndexed [] l) l.
Proof.
  induction l as [|e l IH]; simpl; [constructor|].
  rewrite insertIndexed_permutation. now constructor.
Qed.

Lemma insertIndexed_sorted {V : Type} (e : string * V) (l : list (string * V)) :
  StronglySorted (fun a b => (indexOf (fst a) <= indexOf (fst b))%N) l ->
  StronglySorted (fun a b => (indexOf (fst a) <= indexOf (fst b))%N)
                 (insertIndexed e l).
Proof.
  induction l as [|e' l IH]; simpl; intros H.
  - constructor; constructor.
  - destruct (indexOf (fst e) <=? indexOf (fst e'))%N eqn:E.
    + apply N.leb_le in E. constructor; [exact H|].
      apply StronglySorted_inv in H as [_ H].
      constructor; [exact E|].
      rewrite Forall_forall in *. intros b Hb. specialize (H b Hb). lia.
    + apply N.leb_gt in E. apply StronglySorted_inv in H as [H H'].
      constructor; [now apply IH|].
      apply (Permutation_Forall (Permutation_sym (insertIndexed_permutation e l))).
      constructor; [lia | exact H'].
Qed.

Lemma sortIndexed_sorted {V : Type} (l : list (string * V)) :
  StronglySorted (fun a b => (indexOf (fst a) <= indexOf (fst b))%N)
                 (fold_right insertIndexed [] l).
Proof.
  induction l as [|e l IH]; simpl; [constructor | now apply insertIndexed_sorted].
Qed.

Lemma Object_entries_permutation (obj : JsObject) :
  Permutation (Object_entries obj) obj.
Proof.
  unfold Object_entries. rewrite sortIndexed_permutation.
  apply (filter_split_permutation (fun e => isArrayIndex (fst e))).
Qed.

(** Selecting some of the properties of an object keeps the keys distinct. *)
Lemma selected_keys_distinct (keep : string * Counter -> bool) (obj : JsObject) :
  NoDup (map fst obj) -> NoDup (map fst (filter keep obj)).
Proof.
  induction obj as [|[k v] obj IH]; simpl; intros Hkeys; [constructor|].
  apply NoDup_cons_iff in Hkeys as [Hk Hkeys].
  destruct (keep (k, v)); [|now apply IH].
  simpl. constructor; [|now apply IH].
  intros Hin. apply Hk.
  apply in_map_iff in Hin as [[k' v'] [Hfst Hin]].
  apply filter_In in Hin as [Hin _].
  apply in_map_iff. now exists (k', v').
Qed.

Lemma firstSeenBefore_irreflexive (ks : list string) (k : string) :
  ~ firstSeenBefore ks k k.
Proof. unfold firstSeenBefore. lia. Qed.

(** The enumeration order of an object whose properties were created in
    first-met order. *)
Lemma Object_entries_order (ks : list string) (obj : JsObject) :
  StronglySorted (firstSeenBefore ks) (map fst obj) ->
  StronglySorted (fun a b => keyBefore ks (fst a) (fst b)) (Object_entries obj).
Proof.
  intros H.
  assert (Hnd : NoDup (map fst obj)).
  { apply (sorted_NoDup (firstSeenBefore ks)); [|exact H].
    apply firstSeenBefore_irreflexive. }
  apply sorted_map in H. unfold Object_entries.
  apply sorted_app.
  - apply (sorted_weaken
             (fun a b => (indexOf (fst a) <= indexOf (fst b))%N /\ fst a <> fst b)).
    2:{ apply sorted_distinct; [|apply sortIndexed_sorted].
        apply (Permutation_NoDup
                 (Permutation_map fst (Permutation_sym (sortIndexed_permutation _)))).
        now apply selected_keys_distinct. }
    intros a b Ha Hb [Hle Hne].
    apply (Permutation_in _ (sortIndexed_permutation _)), filter_In in Ha as [_ Ha].
    apply (Permutation_in _ (sortIndexed_permutation _)), filter_In in Hb as [_ Hb].
    unfold keyBefore, isArrayIndex, indexOf in *.
    destruct (arrayIndex (fst a)) as [n1|] eqn:E1; [|discriminate].
    destruct (arrayIndex (fst b)) as [n2|] eqn:E2; [|discriminate].
    apply N.le_lteq in Hle as [Hlt|Heq]; [exact Hlt|]. subst n2.
    exfalso. apply Hne. exact (arrayIndex_injective _ _ _ E1 E2).
  - apply (sorted_weaken (fun a b => firstSeenBefore ks (fst a) (fst b)));
      [|now apply sorted_filter].
    intros a b Ha Hb Hlt.
    apply filter_In in Ha as [_ Ha]. apply filter_In in Hb as [_ Hb].
    unfold keyBefore, isArrayIndex in *.
    destruct (arrayIndex (fst a)); [discriminate|].
    destruct (arrayIndex (fst b)); [discriminate | exact Hlt].
  - intros a b Ha Hb.
    apply (Permutation_in _ (sortIndexed_permutation _)), filter_In in Ha as [_ Ha].
    apply filter_In in Hb as [_ Hb].
    unfold keyBefore, isArrayIndex in *.
    destruct (arrayIndex (fst a)); [|discriminate].
    destruct (arrayIndex (fst b)); [discriminate | exact I].
Qed.

(** *** The ranking *)

Lemma subredditCounts_keys (data : RedditData) (k : string) :
  In k (map fst (subredditCountsOf data))
  <-> In k (origins data) /\ k <> "__proto__"%string.
Proof.
  rewrite subredditCounts_by_key. apply (counting_invariant (origins data)).
Qed.

Lemma subredditCounts_NoDup (data : RedditData) :
  NoDup (map fst (subredditCountsOf data)).
Proof.
  rewrite subredditCounts_by_key.
  apply (sorted_NoDup (firstSeenBefore (origins data)));
    [apply firstSeenBefore_irreflexive | apply (counting_invariant (origins data))].
Qed.

(** Under a name that is no inherited method the counter is the number of
    items of that origin. *)
Lemma subredditCounts_value (data : RedditData) (k : string) (v : Counter) :
  isInheritedMethod k = false ->
  In (k, v) (subredditCountsOf data) -> v = Num (itemsIn k data).
Proof.
  intros Hm Hin.
  pose proof (In_getOwn _ _ _ (subredditCounts_NoDup data) Hin) as Hget.
  assert (Hk : In k (map fst (subredditCountsOf data))).
  { apply in_map_iff. now exists (k, v). }
  rewrite subredditCounts_by_key in Hget, Hk.
  destruct (counting_invariant (origins data)) as [_ [_ Hval]].
  rewrite (Hval k Hm Hk) in Hget. now injection Hget as <-.
Qed.

Lemma ranking_permutation (data : RedditData) :
  Permutation (ranking data) (subredditCountsOf data).
Proof.
  unfold ranking. rewrite Array_sort_permutation. apply Object_entries_permutation.
Qed.

Lemma plainOrigins_key (data : RedditData) (k : string) :
  plainOrigins data = true -> In k (origins data) -> isInheritedMethod k = false.
Proof.
  unfold plainOrigins. rewrite forallb_forall. intros H Hin.
  apply negb_true_iff. now apply H.
Qed.

Lemma ranking_counts (data : RedditData) (e : string * Counter) :
  plainOrigins data = true ->
  In e (ranking data) -> snd e = Num (itemsIn (fst e) data).
Proof.
  intros Hp Hin. apply (Permutation_in _ (ranking_permutation data)) in Hin.
  destruct e as [k v]. simpl. apply subredditCounts_value; [|exact Hin].
  apply (plainOrigins_key data k Hp).
  apply (subredditCounts_keys data k). apply in_map_iff. now exists (k, v).
Qed.

(** The ranking: larger counts first, equal counts in the enumeration
    order of the keys. *)
Lemma ranking_sorted (data : RedditData) :
  plainOrigins data = true ->
  StronglySorted
    (rankedBefore (fun e => countValue (snd e))
                  (fun a b => keyBefore (origins data) (fst a) (fst b)))
    (ranking data).
Proof.
  intros Hp. unfold ranking. apply Array_sort_stable.
  - intros x y Hx Hy.
    assert (Hnum : forall e, In e (Object_entries (subredditCountsOf data)) ->
                     snd e = Num (itemsIn (fst e) data)).
    { intros e He. apply ranking_counts; [exact Hp|].
      unfold ranking.
      now apply (Permutation_in _ (Permutation_sym (Array_sort_permutation _ _))). }
    unfold sortCompare, byCountDescending.
    rewrite (Hnum x Hx), (Hnum y Hy). simpl.
    destruct (itemsIn (fst x) data <? itemsIn (fst y) data) eqn:E.
    + apply Nat.ltb_lt in E. apply Z.ltb_lt. lia.
    + apply Nat.ltb_ge in E. apply Z.ltb_ge. lia.
  - apply Object_entries_order. rewrite subredditCounts_by_key.
    apply (counting_invariant (origins data)).
Qed.

Lemma entryOf_interestOf (l : list (string * Counter)) :
  map entryOf (map interestOf l) = l.
Proof.
  induction l as [|[k v] l IH]; simpl; [reflexivity | now rewrite IH].
Qed.

Lemma ranking_length (data : RedditData) :
  length (ranking data) = length (countedOrigins data).
Proof.
  rewrite (Permutation_length (ranking_permutation data)).
  rewrite <- (length_map fst).
  apply Permutation_length, NoDup_Permutation.
  - apply subredditCounts_NoDup.
  - apply NoDup_nodup.
  - intros k. rewrite subredditCounts_keys. unfold countedOrigins.
    rewrite nodup_In, filter_In, negb_true_iff, String.eqb_neq. tauto.
Qed.

(** *** Interests *)

(** The first five of the ranking, as interests. *)
Lemma interests_ranked (data : RedditData) :
  plainOrigins data = true ->
  let entries := map interestOf (firstn 5 (ranking data)) in
  (forall e, In e entries ->
             Interest.count e = Num (itemsIn (Interest.subreddit e) data))
  /\ StronglySorted
       (fun a b => rankedBefore (fun e => countValue (snd e))
                     (fun a b => keyBefore (origins data) (fst a) (fst b))
                     (entryOf a) (entryOf b))
       entries.
Proof.
  intros Hp entries. split.
  - intros e He. apply in_map_iff in He as [[k v] [<- He]]. simpl.
    apply (ranking_counts data (k, v) Hp).
    rewrite <- (firstn_skipn 5 (ranking data)). apply in_or_app. now left.
  - apply sorted_map. unfold entries. rewrite entryOf_interestOf.
    apply sorted_firstn, ranking_sorted, Hp.
Qed.

(** C5, as the code has it: when no origin is the name of a method that
    every object inherits, the count of each produced interest is the
    number of items of its origin, the interests are sorted by
    non-increasing count, and interests of equal count stand in the order
    in which [Object.entries] enumerates their keys: the origins that are
    array indices (canonical decimal integers) first, in ascending numeric
    order, then the other origins in the order in which they were first
    met in the item sequence. *)
Theorem C5_interest_counts_and_order (u : string) (data : RedditData)
    (Hs : hasOrigins data = true) (Hp : plainOrigins data = true) :
  exists r,
    generatePersona u data = Returns r /\
    forall entries, interests r = Some entries ->
      (forall e, In e entries ->
                 Interest.count e = Num (itemsIn (Interest.subreddit e) data))
      /\ StronglySorted
           (fun a b => countValue (Interest.count a) >= countValue (Interest.count b))
           entries
      /\ StronglySorted
           (fun a b => Interest.count a = Interest.count b ->
                       keyBefore (origins data)
                                 (Interest.subreddit a) (Interest.subreddit b))
           entries.
Proof.
  destruct (allContent data) eqn:E.
  - exists (emptyPersona u). split; [now apply generatePersona_empty|].
    intros entries H. discriminate H.
  - exists (activePersona u data). split.
    { apply generatePersona_active; [|exact Hs]. rewrite E. discriminate. }
    intros entries [= <-].
    destruct (interests_ranked data Hp) as [Hcount Hsorted].
    split; [exact Hcount|]. split.
    + eapply sorted_weaken; [|exact Hsorted].
      intros a b _ _ [H|[H _]]; simpl in H; lia.
    + eapply sorted_weaken; [|exact Hsorted].
      intros a b _ _ [H|[_ H]] Heq; simpl in *; [|exact H].
      rewrite Heq in H. lia.
Qed.

(** Where no origin is an array index either, equal counts stand in
    first-met order. *)
Lemma ties_first_seen_without_index_keys (u : string) (data : RedditData) :
  plainOrigins data = true ->
  (forall k, In k (origins data) -> isArrayIndex k = false) ->
  tiesInFirstSeenOrder data (activePersona u data).
Proof.
  intros Hp Hidx entries [= <-].
  destruct (interests_ranked data Hp) as [_ Hsorted].
  eapply sorted_weaken; [|exact Hsorted].
  intros a b Ha Hb Hr Heq.
  assert (Hk : forall e, In e (map interestOf (firstn 5 (ranking data))) ->
                 isArrayIndex (Interest.subreddit e) = false).
  { intros e He. apply in_map_iff in He as [[k v] [<- He]]. simpl.
    apply Hidx, (subredditCounts_keys data k).
    apply in_map_iff. exists (k, v). split; [reflexivity|].
    apply (Permutation_in _ (ranking_permutation data)).
    rewrite <- (firstn_skipn 5 (ranking data)). apply in_or_app. now left. }
  specialize (Hk a Ha) as Hka. specialize (Hk b Hb) as Hkb.
  destruct Hr as [H|[_ H]]; simpl in H; [rewrite Heq in H; lia|].
  unfold keyBefore, isArrayIndex in *.
  destruct (arrayIndex (Interest.subreddit a)); [discriminate|].
  destruct (arrayIndex (Interest.subreddit b)); [discriminate | exact H].
Qed.

(** A post in r/pics, then a post in r/196: both origins are counted once
    and r/196 is listed first. *)
Lemma C5_witness_pics_then_196 :
  hasOrigins picsThen196 = true /\ plainOrigins picsThen196 = true
  /\ exists r,
       generatePersona "kojied" picsThen196 = Returns r
       /\ forall entries, interests r = Some entries ->
            entries = [ {| Interest.subreddit := "196"; Interest.count := Num 1 |};
                        {| Interest.subreddit := "pics"; Interest.count := Num 1 |} ]
            /\ forall e, In e entries ->
                 Interest.count e = Num (itemsIn (Interest.subreddit e) picsThen196).
Proof.
  split; [reflexivity|]. split; [reflexivity|].
  destruct (C5_interest_counts_and_order "kojied" picsThen196 eq_refl eq_refl)
    as [r [Hr H]].
  exists r. split; [exact Hr|].
  intros entries He. destruct (H entries He) as [Hc _]. split; [|exact Hc].
  assert (Hr' : generatePersona "kojied" picsThen196
                = Returns (activePersona "kojied" picsThen196)) by reflexivity.
  rewrite Hr in Hr'. injection Hr' as ->.
  vm_compute in He. now injection He as <-.
Defined.

(** The same input against the claim: r/pics was met first, the counts are
    equal, and r/196 comes first in the result. *)
Lemma C5_counterexample_index_key_first :
  generatePersona "kojied" picsThen196 = Returns (activePersona "kojied" picsThen196)
  /\ interests (activePersona "kojied" picsThen196)
     = Some [ {| Interest.subreddit := "196"; Interest.count := Num 1 |};
              {| Interest.subreddit := "pics"; Interest.count := Num 1 |} ]
  /\ firstSeenBefore (origins picsThen196) "pics" "196"
  /\ ~ tiesInFirstSeenOrder picsThen196 (activePersona "kojied" picsThen196).
Proof.
  split; [reflexivity|]. split; [reflexivity|].
  split; [unfold firstSeenBefore; simpl; lia|].
  intros H. specialize (H _ eq_refl).
  apply StronglySorted_inv in H as [_ H].
  apply Forall_inv in H. specialize (H eq_refl).
  unfold firstSeenBefore in H. simpl in H. lia.
Qed.

Lemma filter_all {A : Type} (f : A -> bool) (l : list A) :
  (forall x, In x l -> f x = true) -> filter f l = l.
Proof.
  induction l as [|x l IH]; simpl; intros H; [reflexivity|].
  rewrite (H x (or_introl eq_refl)), IH; [reflexivity|].
  intros y Hy. apply H. now right.
Qed.

(** The interests are the first five entries of the ranking and the top
    origins its first three, one entry for each origin that the counter
    object holds. *)
Lemma prefixes_of_the_ranking (u : string) (data : RedditData) :
  interests (activePersona u data) = Some (map interestOf (firstn 5 (ranking data)))
  /\ mostActiveSubreddits (engagement (activePersona u data))
     = Some (firstn 3 (map entryOf (map interestOf (firstn 5 (ranking data)))))
  /\ length (map interestOf (firstn 5 (ranking data)))
     = Nat.min 5 (length (countedOrigins data))
  /\ length (firstn 3 (map entryOf (map interestOf (firstn 5 (ranking data)))))
     = Nat.min 3 (length (countedOrigins data)).
Proof.
  rewrite entryOf_interestOf.
  split; [reflexivity|]. split; [reflexivity|]. split.
  - now rewrite length_map, length_firstn, ranking_length.
  - rewrite !length_firstn, ranking_length. lia.
Qed.

Lemma countedOrigins_without_proto (data : RedditData) :
  ~ In "__proto__"%string (origins data) ->
  countedOrigins data = distinctOrigins data.
Proof.
  intros Hnp. unfold countedOrigins, distinctOrigins. f_equal.
  apply filter_all. intros k Hk. apply negb_true_iff, String.eqb_neq.
  intros ->. contradiction.
Qed.

(** C9, a defect of the counting: the origins are counted in a plain
    object, and an assignment to the key [__proto__] of a plain object
    stores nothing.  For every non-empty input none of whose origins is
    spelled [__proto__] the code does what the claim says: the interests
    list has length min(5, number of distinct origins), the top-origins
    list has length min(3, number of distinct origins) and is made of the
    first entries of the interests, origin by origin and count by count.
    One post in a subreddit spelled [__proto__] is a non-empty input with
    one distinct origin for which both lists are empty. *)
Theorem C9_origin_proto_is_not_counted :
  (forall (u : string) (data : RedditData),
     hasOrigins data = true -> allContent data <> [] ->
     ~ In "__proto__"%string (origins data) ->
     exists r entries top,
       generatePersona u data = Returns r
       /\ interests r = Some entries
       /\ mostActiveSubreddits (engagement r) = Some top
       /\ length entries = Nat.min 5 (length (distinctOrigins data))
       /\ length top = Nat.min 3 (length (distinctOrigins data))
       /\ top = firstn 3 (map entryOf entries))
  /\ (forall u : string,
        generatePersona u onlyProto = Returns (activePersona u onlyProto)
        /\ allContent onlyProto <> []
        /\ distinctOrigins onlyProto = ["__proto__"%string]
        /\ interests (activePersona u onlyProto) = Some []
        /\ mostActiveSubreddits (engagement (activePersona u onlyProto)) = Some []
        /\ ~ fiveOfTheDistinctOrigins onlyProto (activePersona u onlyProto)).
Proof.
  split.
  - intros u data Hs Hne Hnp.
    destruct (prefixes_of_the_ranking u data) as [Hi [Hm [Hl Ht]]].
    rewrite (countedOrigins_without_proto data Hnp) in Hl, Ht.
    exists (activePersona u data), (map interestOf (firstn 5 (ranking data))),
      (firstn 3 (map entryOf (map interestOf (firstn 5 (ranking data))))).
    split; [now apply generatePersona_active|].
    split; [exact Hi|]. split; [exact Hm|]. split; [exact Hl|].
    split; [exact Ht | reflexivity].
  - intros u.
    split; [apply generatePersona_active; [discriminate | reflexivity]|].
    split; [discriminate|]. split; [reflexivity|].
    split; [reflexivity|]. split; [reflexivity|].
    intros H. specialize (H _ eq_refl). vm_compute in H. discriminate H.
Qed.

(** A post in r/pics, then a post in r/196: two distinct origins, two
    interests, and the same two entries as top origins. *)
Lemma C9_witness_pics_then_196 :
  exists r entries top,
    generatePersona "kojied" picsThen196 = Returns r
    /\ interests r = Some entries
    /\ mostActiveSubreddits (engagement r) = Some top
    /\ length entries = 2 /\ length top = 2
    /\ top = firstn 3 (map entryOf entries).
Proof.
  destruct (proj1 C9_origin_proto_is_not_counted "kojied" picsThen196 eq_refl)
    as [r [entries [top [Hr [Hi [Hm [Hl [Ht Hp]]]]]]]].
  - discriminate.
  - simpl. intros [H|[H|[]]]; discriminate H.
  - exists r, entries, top.
    split; [exact Hr|]. split; [exact Hi|]. split; [exact Hm|].
    split; [exact Hl|]. split; [exact Ht | exact Hp].
Defined.

(** *** The renderer on samples *)

(** The same persona rendered at two clock readings one millisecond apart:
    the two texts differ. *)
Lemma C7_counterexample_two_clock_readings :
  formatPersonaAsText "2025-07-14T09:30:00.000Z" (emptyPersona "kojied")
  <> formatPersonaAsText "2025-07-14T09:30:00.001Z" (emptyPersona "kojied").
Proof.
  apply String.eqb_neq. vm_compute. reflexivity.
Qed.

(** The report of a user without activity: no TOP INTERESTS section, no
    PERSONALITY TRAITS section, no "Most Active Subreddits:" line. *)
Example report_without_activity :
  formatPersonaAsText "2025-07-14T09:30:00.000Z" (emptyPersona "kojied")
  = "REDDIT USER PERSONA ANALYSIS
==================================================

Username: u/kojied
Generated: 2025-07-14T09:30:00.000Z

SUMMARY
--------------------
No public posts or comments found for analysis.

ENGAGEMENT STATISTICS
------------------------------
Total Posts: 0
Total Comments: 0
Average Score: 0

--------------------------------------------------
Analysis generated by Reddit Persona Analyzer
"%string.
Proof. vm_compute. reflexivity. Qed.

(** The report of the four comments about code. *)
Example report_of_four_tech_comments :
  formatPersonaAsText "2025-07-14T09:30:00.000Z"
                      (activePersona "kojied" fourTechComments)
  = "REDDIT USER PERSONA ANALYSIS
==================================================

Username: u/kojied
Generated: 2025-07-14T09:30:00.000Z

SUMMARY
--------------------
Active Reddit user with 0 posts and 4 comments. Primary interests include programming.

TOP INTERESTS (by activity)
------------------------------
1. r/programming (4 posts/comments)

PERSONALITY TRAITS
-------------------------
1. Technology Enthusiast (60% confidence)
   Evidence:
   - [comment in r/programming] I write code every day...
   - [comment in r/programming] I write code every day...

ENGAGEMENT STATISTICS
------------------------------
Total Posts: 0
Total Comments: 4
Average Score: 1
Most Active Subreddits: r/programming

--------------------------------------------------
Analysis generated by Reddit Persona Analyzer
"%string.
Proof. vm_compute. reflexivity. Qed.

(** [Number::toString] on a few doubles. *)
Example Number_toString_samples :
  map Number_toString
      [ 0; -0; 1; 57 / 100; 67 / 100; -5 / 2; 1 / 3; 100; 1 / 10000000;
        1000000000000000000000; 123456789 / 1000 ]%float
  = [ "0"; "0"; "1"; "0.57"; "0.67"; "-2.5"; "0.3333333333333333"; "100";
      "1e-7"; "1e+21"; "123456.789" ]%string.
Proof. vm_compute. reflexivity. Qed.

(** *** The scenarios of the design *)

(** A single item in r/digitalart matches the creative rule once, which
    does not exceed the threshold 1: no trait. *)
Example one_creative_item_is_not_enough :
  matchCount creativeRule oneDigitalArtPost = 1
  /\ generatePersona "kojied" oneDigitalArtPost
     = Returns (activePersona "kojied" oneDigitalArtPost)
  /\ traits (activePersona "kojied" oneDigitalArtPost) = [].
Proof. repeat split. Qed.

(** Six comments of 250 characters: Thoughtful Communicator, with
    confidence min(6 * 8, 100) = 48. *)
Example six_long_comments :
  generatePersona "kojied" sixLongComments
  = Returns (activePersona "kojied" sixLongComments)
  /\ map (fun t => (trait t, confidence t, length (evidence t)))
         (traits (activePersona "kojied" sixLongComments))
     = [("Thoughtful Communicator"%string, 48, 2)]
  /\ map (fun e => String.length (Evidence.content e))
         (flat_map evidence (traits (activePersona "kojied" sixLongComments)))
     = [153; 153].
Proof. vm_compute. repeat split. Qed.

(** One post in a subreddit called [constructor]: the lookup finds the
    inherited function, and the counter is a string. *)
Example counter_under_an_inherited_name :
  generatePersona "kojied" oneConstructorPost
  = Returns (activePersona "kojied" oneConstructorPost)
  /\ plainOrigins oneConstructorPost = false
  /\ itemsIn "constructor" oneConstructorPost = 1
  /\ interests (activePersona "kojied" oneConstructorPost)
     = Some [ {| Interest.subreddit := "constructor";
                 Interest.count := Str "function Object() { [native code] }1" |} ].
Proof. vm_compute. repeat split. Qed.

(* ================================================================== *)
(** ** Further properties of the engine                                 *)
(* ================================================================== *)



(** The labels of the table's trait list: those of the rules whose
    threshold is exceeded, in the order of the table. *)
Lemma catalog_labels_in_order (data : RedditData) :
  map trait (traitsByCatalog data)
  = map label (filter (fun rule => threshold rule <? matchCount rule data) ruleCatalog).
Proof.
  unfold traitsByCatalog, ruleCatalog. cbn [flat_map filter].
  unfold detect.
  destruct (threshold helpfulRule <? _); destruct (threshold techRule <? _);
    destruct (threshold creativeRule <? _); destruct (threshold thoughtfulRule <? _);
    reflexivity.
Qed.

(** X2: the returned traits come in the fixed order of the four rules
    (Helpful and Supportive, Technology Enthusiast, Creative and Artistic,
    Thoughtful Communicator), one for each rule whose threshold is
    exceeded: no label twice, at most four traits, never sorted by
    confidence. *)
Theorem traits_follow_rule_order (u : string) (data : RedditData)
    (Hs : hasOrigins data = true) :
  exists r,
    generatePersona u data = Returns r
    /\ map trait (traits r)
       = map label (filter (fun rule => threshold rule <? matchCount rule data)
                           ruleCatalog)
    /\ NoDup (map trait (traits r))
    /\ length (traits r) <= 4.
Proof.
  destruct (traits_of_result u data Hs) as [r [Hr Ht]].
  exists r. split; [exact Hr|].
  assert (Hl := catalog_labels_in_order data). rewrite <- Ht in Hl.
  split; [exact Hl|]. split.
  - rewrite Hl. unfold ruleCatalog. cbn [filter].
    destruct (threshold helpfulRule <? _); destruct (threshold techRule <? _);
      destruct (threshold creativeRule <? _); destruct (threshold thoughtfulRule <? _);
      cbn [map label helpfulRule techRule creativeRule thoughtfulRule];
      repeat (constructor; [simpl; intuition discriminate|]); constructor.
  - rewrite <- (length_map trait), Hl, length_map.
    unfold ruleCatalog. cbn [filter].
    destruct (threshold helpfulRule <? _); destruct (threshold techRule <? _);
      destruct (threshold creativeRule <? _); destruct (threshold thoughtfulRule <? _);
      simpl; lia.
Qed.

(** Four posts that ask for help with code: two traits, Helpful first. *)
Lemma traits_follow_rule_order_witness :
  hasOrigins fourHelpWithCodePosts = true
  /\ exists r,
       generatePersona "kojied" fourHelpWithCodePosts = Returns r
       /\ map trait (traits r)
          = ["Helpful and Supportive"%string; "Technology Enthusiast"%string].
Proof.
  split; [reflexivity|].
  destruct (traits_follow_rule_order "kojied" fourHelpWithCodePosts eq_refl)
    as [r [Hr [Hl _]]].
  exists r. split; [exact Hr|]. rewrite Hl. reflexivity.
Defined.

(** *** Interests *)

Lemma NoDup_firstn_keys (n : nat) (l : list (string * Counter)) :
  NoDup (map fst l) -> NoDup (map fst (firstn n l)).
Proof.
  intros H. rewrite <- (firstn_skipn n l), map_app in H.
  now apply NoDup_app_remove_r in H.
Qed.

Lemma ranking_keys_NoDup (data : RedditData) : NoDup (map fst (ranking data)).
Proof.
  apply (Permutation_NoDup
           (Permutation_map fst (Permutation_sym (ranking_permutation data)))).
  apply subredditCounts_NoDup.
Qed.

Lemma ranking_keys (data : RedditData) (k : string) :
  In k (map fst (ranking data))
  <-> In k (origins data) /\ k <> "__proto__"%string.
Proof.
  rewrite <- subredditCounts_keys. split; intros H.
  - now apply (Permutation_in _ (Permutation_map fst (ranking_permutation data))).
  - now apply (Permutation_in _ (Permutation_map fst
                                   (Permutation_sym (ranking_permutation data)))).
Qed.

Lemma subreddit_of_interests (l : list (string * Counter)) :
  map Interest.subreddit (map interestOf l) = map fst l.
Proof.
  induction l as [|e l IH]; simpl; [reflexivity | now rewrite IH].
Qed.

(** X3: for a non-empty input the interests never name an origin twice,
    name only origins of input items, and hold at most five entries; when
    the input has at most five distinct origins (not counting
    [__proto__]), every one of them is among the interests. *)
Theorem interests_are_distinct_input_origins (u : string) (data : RedditData)
    (Hs : hasOrigins data = true) (Hne : allContent data <> []) :
  exists r entries,
    generatePersona u data = Returns r
    /\ interests r = Some entries
    /\ NoDup (map Interest.subreddit entries)
    /\ length entries <= 5
    /\ (forall e, In e entries ->
          exists item, In item (allContent data)
                       /\ subreddit item = val (Interest.subreddit e))
    /\ (length (countedOrigins data) <= 5 ->
        forall item, In item (allContent data) ->
          originOf item <> "__proto__"%string ->
          In (originOf item) (map Interest.subreddit entries)).
Proof.
  exists (activePersona u data), (map interestOf (firstn 5 (ranking data))).
  split; [now apply generatePersona_active|]. split; [reflexivity|].
  rewrite subreddit_of_interests. split; [|split; [|split]].
  - apply NoDup_firstn_keys, ranking_keys_NoDup.
  - rewrite length_map, length_firstn. lia.
  - intros e He. apply in_map_iff in He as [[k v] [<- He]]. simpl.
    assert (Hk : In k (map fst (ranking data))).
    { apply in_map_iff. exists (k, v). split; [reflexivity|].
      rewrite <- (firstn_skipn 5 (ranking data)). apply in_or_app. now left. }
    apply ranking_keys in Hk as [Hk _]. unfold origins in Hk.
    apply in_map_iff in Hk as [item [Ho Hin]]. exists item. split; [exact Hin|].
    unfold hasOrigins in Hs. rewrite forallb_forall in Hs. specialize (Hs item Hin).
    unfold hasSubreddit in Hs. unfold originOf, toPropertyKey in Ho.
    destruct (subreddit item) as [| |s]; try discriminate. simpl in Ho. now subst.
  - intros Hfew item Hin Hnp.
    rewrite firstn_all2 by (rewrite ranking_length; exact Hfew).
    apply ranking_keys. split; [|exact Hnp]. unfold origins. now apply in_map.
Qed.

Lemma interests_are_distinct_input_origins_witness :
  hasOrigins picsThen196 = true /\ allContent picsThen196 <> []
  /\ exists r entries,
       generatePersona "kojied" picsThen196 = Returns r
       /\ interests r = Some entries
       /\ NoDup (map Interest.subreddit entries)
       /\ length entries <= 5.
Proof.
  split; [reflexivity|]. split; [discriminate|].
  destruct (interests_are_distinct_input_origins "kojied" picsThen196 eq_refl)
    as [r [entries [Hr [Hi [Hnd [Hlen _]]]]]]; [discriminate|].
  exists r, entries. split; [exact Hr|]. split; [exact Hi|]. split; [exact Hnd | exact Hlen].
Defined.

Lemma list_sum_map_add {A : Type} (f g : A -> nat) (l : list A) :
  list_sum (map (fun x => f x + g x) l) = list_sum (map f l) + list_sum (map g l).
Proof.
  induction l as [|x l IH]; simpl; [reflexivity | rewrite IH; lia].
Qed.

(** Among distinct keys, [x] is met once or not at all. *)
Lemma met_once (x : string) (l : list string) :
  NoDup l ->
  list_sum (map (fun k => if string_dec x k then 1 else 0) l)
  = if in_dec string_dec x l then 1 else 0.
Proof.
  induction l as [|k l IH]; simpl; intros Hnd; [reflexivity|].
  apply NoDup_cons_iff in Hnd as [Hk Hnd]. rewrite (IH Hnd).
  destruct (string_dec k x) as [->|Hne].
  - destruct (string_dec x x); [|congruence].
    destruct (in_dec string_dec x l); [contradiction | reflexivity].
  - destruct (string_dec x k); [congruence|].
    destruct (in_dec string_dec x l); reflexivity.
Qed.

(** Added up over distinct keys, the occurrence counts give the number of
    items under one of these keys. *)
Lemma occurrences_add_up (ks l : list string) :
  NoDup l ->
  list_sum (map (count_occ string_dec ks) l)
  = length (filter (fun x => if in_dec string_dec x l then true else false) ks).
Proof.
  intros Hnd. induction ks as [|x ks IH]; simpl.
  - induction l as [|k l IHl]; simpl; [reflexivity|].
    apply NoDup_cons_iff in Hnd as [_ Hnd]. now apply IHl.
  - rewrite (map_ext _ (fun k => (if string_dec x k then 1 else 0)
                                  + count_occ string_dec ks k)).
    2:{ intros k. destruct (string_dec x k); reflexivity. }
    rewrite list_sum_map_add, IH, (met_once x l Hnd).
    destruct (in_dec string_dec x l); reflexivity.
Qed.

Lemma list_sum_firstn (n : nat) (l : list nat) :
  list_sum (firstn n l) <= list_sum l.
Proof.
  rewrite <- (firstn_skipn n l) at 2. rewrite list_sum_app. lia.
Qed.

Lemma ranking_total (data : RedditData) :
  plainOrigins data = true ->
  list_sum (map (fun e => countValue (snd e)) (ranking data))
  = length (filter (fun k => negb (k =? "__proto__")%string) (origins data)).
Proof.
  intros Hp.
  rewrite (map_ext_in _ (fun e => count_occ string_dec (origins data) (fst e))).
  2:{ intros e He. now rewrite (ranking_counts data e Hp He). }
  rewrite <- (map_map fst (count_occ string_dec (origins data))).
  rewrite (occurrences_add_up _ _ (ranking_keys_NoDup data)).
  f_equal. apply filter_ext_in. intros k Hk.
  destruct (in_dec string_dec k (map fst (ranking data))) as [Hin|Hnin].
  - apply ranking_keys in Hin as [_ Hne]. symmetry.
    now apply negb_true_iff, String.eqb_neq.
  - symmetry. apply negb_false_iff, String.eqb_eq.
    destruct (string_dec k "__proto__") as [->|Hne]; [reflexivity|].
    exfalso. apply Hnin, ranking_keys. now split.
Qed.

(** X4: when no origin is the name of an inherited method, the counts of
    the interests never add up to more than the number of items; they add
    up to exactly that number when the input has at most five distinct
    origins and none of them is [__proto__]. *)
Theorem interest_counts_add_up (u : string) (data : RedditData)
    (Hs : hasOrigins data = true) (Hp : plainOrigins data = true)
    (Hne : allContent data <> []) :
  exists r entries,
    generatePersona u data = Returns r
    /\ interests r = Some entries
    /\ totalCount entries <= length (allContent data)
    /\ (length (distinctOrigins data) <= 5 ->
        ~ In "__proto__"%string (origins data) ->
        totalCount entries = length (allContent data)).
Proof.
  exists (activePersona u data), (map interestOf (firstn 5 (ranking data))).
  split; [now apply generatePersona_active|]. split; [reflexivity|].
  assert (Htotal : totalCount (map interestOf (firstn 5 (ranking data)))
                   = list_sum (firstn 5 (map (fun e => countValue (snd e))
                                             (ranking data)))).
  { unfold totalCount. rewrite map_map, firstn_map. reflexivity. }
  assert (Hall : length (allContent data) = length (origins data)).
  { unfold origins. now rewrite length_map. }
  split.
  - rewrite Htotal, Hall.
    etransitivity; [apply list_sum_firstn|].
    rewrite (ranking_total data Hp). apply filter_length_le.
  - intros Hfew Hnp. rewrite Htotal, Hall.
    assert (Hsame : filter (fun k => negb (k =? "__proto__")%string) (origins data)
                    = origins data).
    { apply filter_all. intros k Hk. apply negb_true_iff, String.eqb_neq.
      intros ->. contradiction. }
    rewrite firstn_all2.
    + now rewrite (ranking_total data Hp), Hsame.
    + rewrite length_map, ranking_length. unfold countedOrigins.
      rewrite Hsame. exact Hfew.
Qed.

Lemma interest_counts_add_up_witness :
  hasOrigins picsThen196 = true /\ plainOrigins picsThen196 = true
  /\ allContent picsThen196 <> []
  /\ exists r entries,
       generatePersona "kojied" picsThen196 = Returns r
       /\ interests r = Some entries
       /\ totalCount entries = 2.
Proof.
  split; [reflexivity|]. split; [reflexivity|]. split; [discriminate|].
  destruct (interest_counts_add_up "kojied" picsThen196 eq_refl eq_refl)
    as [r [entries [Hr [Hi [_ Heq]]]]]; [discriminate|].
  exists r, entries. split; [exact Hr|]. split; [exact Hi|].
  apply Heq; [vm_compute; lia|].
  simpl. intros [H|[H|[]]]; discriminate H.
Defined.

(** *** What the engine reads of an item *)

Lemma allContent_mapData (f : RawItem -> RawItem) (data : RedditData) :
  allContent (mapData f data) = map f (allContent data).
Proof. unfold allContent, mapData. simpl. now rewrite map_app. Qed.

Lemma filter_through_map (f : RawItem -> RawItem) (test : RawItem -> bool)
    (items : list RawItem) :
  (forall item, test (f item) = test item) ->
  filter test (map f items) = map f (filter test items).
Proof.
  intros H. induction items as [|x l IH]; simpl; [reflexivity|].
  rewrite H. destruct (test x); simpl; now rewrite IH.
Qed.

Lemma pool_mapData (f : RawItem -> RawItem) (data : RedditData) (rule : Rule) :
  In rule ruleCatalog -> pool rule (mapData f data) = map f (pool rule data).
Proof.
  unfold ruleCatalog. simpl. intros [<-|[<-|[<-|[<-|[]]]]]; simpl;
    try apply allContent_mapData; reflexivity.
Qed.

(** Where [f] changes no item in the eyes of a rule, the rule matches the
    images of the items it matched. *)
Lemma matching_mapData (f : RawItem -> RawItem) (data : RedditData) (rule : Rule) :
  In rule ruleCatalog ->
  (forall item, qualifies rule (f item) = qualifies rule item) ->
  matching rule (mapData f data) = map f (matching rule data).
Proof.
  intros Hr Hq. unfold matching. rewrite (pool_mapData f data rule Hr).
  now apply filter_through_map.
Qed.

Section SameObservations.

Variable f : RawItem -> RawItem.
Hypothesis same_text : forall item, titleOrBody (f item) = titleOrBody item.
Hypothesis same_body : forall item, bodyOrEmpty (f item) = bodyOrEmpty item.
Hypothesis same_kind : forall item, postOrComment (f item) = postOrComment item.
Hypothesis same_subreddit : forall item, subreddit (f item) = subreddit item.
Hypothesis same_score :
  forall item, numberOrZero (score (f item)) = numberOrZero (score item).

Lemma same_qualifies (rule : Rule) (item : RawItem) :
  In rule ruleCatalog -> qualifies rule (f item) = qualifies rule item.
Proof.
  unfold ruleCatalog. simpl. intros [<-|[<-|[<-|[<-|[]]]]]; simpl.
  - unfold mentionsAny. now rewrite same_text.
  - unfold mentionsAny. now rewrite same_text.
  - unfold inCreative. now rewrite same_subreddit.
  - unfold isLongComment. now rewrite same_body.
Qed.

Lemma same_evidence (rule : Rule) (item : RawItem) :
  In rule ruleCatalog ->
  evidenceOf (kindOf rule) (snippetText rule) (snippetLength rule) (f item)
  = evidenceOf (kindOf rule) (snippetText rule) (snippetLength rule) item.
Proof.
  unfold ruleCatalog, evidenceOf. simpl. intros [<-|[<-|[<-|[<-|[]]]]]; simpl;
    now rewrite ?same_text, ?same_body, ?same_kind, ?same_subreddit.
Qed.

Lemma same_detect (data : RedditData) (rule : Rule) :
  In rule ruleCatalog -> detect (mapData f data) rule = detect data rule.
Proof.
  intros Hr. unfold detect, matchCount.
  rewrite (matching_mapData f data rule Hr (fun item => same_qualifies rule item Hr)).
  rewrite length_map, firstn_map, map_map.
  rewrite (map_ext _ _ (fun item => same_evidence rule item Hr)).
  reflexivity.
Qed.

Lemma same_traits (data : RedditData) :
  traitsByCatalog (mapData f data) = traitsByCatalog data.
Proof.
  unfold traitsByCatalog, ruleCatalog. cbn [flat_map].
  rewrite !same_detect; [reflexivity | simpl; auto ..].
Qed.

Lemma same_origins (data : RedditData) : origins (mapData f data) = origins data.
Proof.
  unfold origins. rewrite allContent_mapData, map_map.
  apply map_ext. intros item. unfold originOf. now rewrite same_subreddit.
Qed.

Lemma same_ranking (data : RedditData) : ranking (mapData f data) = ranking data.
Proof.
  unfold ranking. now rewrite !subredditCounts_by_key, same_origins.
Qed.

Lemma same_total (data : RedditData) :
  totalScoreOf (mapData f data) = totalScoreOf data.
Proof.
  unfold totalScoreOf. rewrite allContent_mapData. generalize 0%float.
  induction (allContent data) as [|x l IH]; intros acc; simpl; [reflexivity|].
  now rewrite same_score, IH.
Qed.

Lemma same_hasOrigins (data : RedditData) :
  hasOrigins (mapData f data) = hasOrigins data.
Proof.
  unfold hasOrigins. rewrite allContent_mapData.
  induction (allContent data) as [|x l IH]; simpl; [reflexivity|].
  unfold hasSubreddit at 1. rewrite same_subreddit. fold (hasSubreddit x).
  now rewrite IH.
Qed.

(** Two inputs that differ by [f] give the same outcome. *)
Lemma same_outcome (u : string) (data : RedditData) :
  generatePersona u (mapData f data) = generatePersona u data.
Proof.
  destruct (allContent data) eqn:E.
  - rewrite !generatePersona_empty; try reflexivity; try exact E.
    now rewrite allContent_mapData, E.
  - destruct (hasOrigins data) eqn:Hs.
    + rewrite (generatePersona_active u data);
        [| rewrite E; discriminate | exact Hs].
      rewrite (generatePersona_active u (mapData f data));
        [| rewrite allContent_mapData, E; discriminate
         | rewrite same_hasOrigins; exact Hs].
      unfold activePersona, roundToHundredths, meanScoreOf.
      rewrite same_ranking, same_traits, same_total, allContent_mapData.
      unfold mapData. simpl. now rewrite !length_map.
    + rewrite (generatePersona_throws u data Hs).
      apply generatePersona_throws. now rewrite same_hasOrigins.
Qed.

End SameObservations.

Lemma numberOrZero_again (s : jsopt float) :
  numberOrZero (val (numberOrZero s)) = numberOrZero s.
Proof.
  destruct s as [| |x]; try reflexivity.
  unfold numberOrZero.
  destruct (PrimFloat.eqb x 0 || negb (PrimFloat.eqb x x)) eqn:E; [reflexivity|].
  now rewrite E.
Qed.

(** X5: the engine cannot tell a missing title or body from a null or an
    empty one, nor a missing, null, NaN or zero score from the score 0:
    writing these defaults into every item changes neither the persona
    returned nor whether the call throws. *)
Theorem defaults_make_no_difference (u : string) (data : RedditData) :
  generatePersona u (mapData withDefaults data) = generatePersona u data.
Proof.
  apply same_outcome; intros item; unfold withDefaults.
  - unfold titleOrBody, falsyToMissing. simpl.
    destruct (title item) as [| |[|c t]]; destruct (body item) as [| |[|c' b]];
      reflexivity.
  - unfold bodyOrEmpty, falsyToMissing. simpl.
    destruct (body item) as [| |[|c' b]]; reflexivity.
  - unfold postOrComment, falsyToMissing. simpl.
    destruct (title item) as [| |[|c t]]; reflexivity.
  - reflexivity.
  - simpl. apply numberOrZero_again.
Qed.

(** *** Letter case *)

Lemma lowerUnit_again (c : ascii) : lowerUnit (lowerUnit c) = lowerUnit c.
Proof.
  destruct c as [[] [] [] [] [] [] [] []]; reflexivity.
Qed.

Lemma toLowerCase_again (s : string) : toLowerCase (toLowerCase s) = toLowerCase s.
Proof.
  induction s as [|c s IH]; simpl; [reflexivity | now rewrite lowerUnit_again, IH].
Qed.

Section LetterCase.

Variable recase : string -> string.
Hypothesis lowered_alike : forall s, toLowerCase (recase s) = toLowerCase s.

Lemma truthy_recaseField (field : jsopt string) :
  truthyField (recaseField recase field) = truthyField field.
Proof.
  destruct field as [| |s]; try reflexivity. simpl.
  destruct s as [|c s]; destruct (recase _) as [|c' s'] eqn:E; try reflexivity.
  - specialize (lowered_alike ""%string). rewrite E in lowered_alike.
    discriminate lowered_alike.
  - specialize (lowered_alike (String c s)). rewrite E in lowered_alike.
    discriminate lowered_alike.
Qed.

Lemma titleOrBody_recased (item : RawItem) :
  toLowerCase (titleOrBody (recased recase item)) = toLowerCase (titleOrBody item).
Proof.
  unfold titleOrBody, recased. cbn [title body]. rewrite !truthy_recaseField.
  destruct (title item) as [| |t]; destruct (body item) as [| |b]; cbn;
    repeat match goal with
           | |- context [match ?x with EmptyString => _ | String _ _ => _ end] =>
               destruct x
           end;
    try reflexivity; cbn [recaseField fieldToString]; apply lowered_alike.
Qed.

Lemma qualifies_recased (rule : Rule) (item : RawItem) :
  In rule keywordRules ->
  qualifies rule (recased recase item) = qualifies rule item.
Proof.
  unfold keywordRules. simpl. intros [<-|[<-|[<-|[]]]]; simpl.
  - unfold mentionsAny. now rewrite titleOrBody_recased.
  - unfold mentionsAny. now rewrite titleOrBody_recased.
  - unfold inCreative, recased. simpl.
    destruct (subreddit item) as [| |s]; try reflexivity. simpl.
    now rewrite lowered_alike.
Qed.

Lemma matching_recased (rule : Rule) (data : RedditData) :
  In rule keywordRules ->
  matching rule (mapData (recased recase) data)
  = map (recased recase) (matching rule data).
Proof.
  intros Hr. apply matching_mapData.
  - unfold keywordRules, ruleCatalog in *. simpl in *. tauto.
  - intros item. now apply qualifies_recased.
Qed.

Lemma hasOrigins_recased (data : RedditData) :
  hasOrigins (mapData (recased recase) data) = hasOrigins data.
Proof.
  unfold hasOrigins. rewrite allContent_mapData.
  induction (allContent data) as [|x l IH]; simpl; [reflexivity|].
  rewrite IH. f_equal. unfold hasSubreddit, recased. simpl.
  now destruct (subreddit x).
Qed.

End LetterCase.

(** X6: the three keyword rules ignore letter case.  Let the title, body
    and subreddit of every item be rewritten in a way that lower-casing
    undoes (the lower case of the new text is the lower case of the old
    one).  Then each keyword rule matches the rewritten items of exactly
    the items it matched, so the traits "Helpful and Supportive",
    "Technology Enthusiast" and "Creative and Artistic" are detected as
    before, in the same order and with the same confidences.  The fourth
    rule compares the length of a comment with 200 and is not part of the
    statement. *)
Theorem keyword_rules_ignore_letter_case (recase : string -> string)
    (u : string) (data : RedditData)
    (Hcase : forall s, toLowerCase (recase s) = toLowerCase s)
    (Hs : hasOrigins data = true) :
  (forall rule, In rule keywordRules ->
     matching rule (mapData (recased recase) data)
     = map (recased recase) (matching rule data))
  /\ exists r r',
       generatePersona u data = Returns r
       /\ generatePersona u (mapData (recased recase) data) = Returns r'
       /\ keywordTraits r' = keywordTraits r.
Proof.
  split; [intros rule Hr; now apply matching_recased|].
  assert (Hcount : forall rule, In rule keywordRules ->
            matchCount rule (mapData (recased recase) data) = matchCount rule data).
  { intros rule Hr. unfold matchCount.
    rewrite (matching_recased recase Hcase rule data Hr). apply length_map. }
  assert (Hs' : hasOrigins (mapData (recased recase) data) = true)
    by now rewrite hasOrigins_recased.
  destruct (traits_of_result u data Hs) as [r [Hr Ht]].
  destruct (traits_of_result u (mapData (recased recase) data) Hs') as [r' [Hr' Ht']].
  exists r, r'. split; [exact Hr|]. split; [exact Hr'|].
  unfold keywordTraits. rewrite Ht, Ht'.
  unfold traitsByCatalog, ruleCatalog. cbn [flat_map]. unfold detect.
  rewrite !Hcount by (unfold keywordRules; simpl; auto).
  destruct (threshold helpfulRule <? _); destruct (threshold techRule <? _);
    destruct (threshold creativeRule <? _);
    destruct (threshold thoughtfulRule <? matchCount thoughtfulRule data);
    destruct (threshold thoughtfulRule <? _);
    reflexivity.
Qed.

Lemma keyword_rules_ignore_letter_case_witness :
  hasOrigins fourLoudPosts = true
  /\ matching helpfulRule (mapData (recased toLowerCase) fourLoudPosts)
     = repeat (post "help me, please" "askreddit" 2%float) 4
  /\ matchCount helpfulRule fourLoudPosts = 4.
Proof.
  split; [reflexivity|].
  destruct (keyword_rules_ignore_letter_case toLowerCase "kojied" fourLoudPosts
              toLowerCase_again eq_refl) as [Hsame _].
  split; [|reflexivity].
  rewrite (Hsame helpfulRule); [reflexivity | unfold keywordRules; simpl; auto].
Defined.

(* ================================================================== *)
(** ** Properties of [extractUsername]                                  *)
(* ================================================================== *)

Lemma skipLiteral_sound (literal s rest : string) :
  skipLiteral literal s = Some rest ->
  exists head, s = (head ++ rest)%string /\ toLowerCase head = literal.
Proof.
  revert s. induction literal as [|p literal IH]; intros s; simpl.
  - intros [= ->]. now exists ""%string.
  - destruct s as [|c s]; [discriminate|].
    destruct (Ascii.eqb (lowerUnit c) p) eqn:E; [|discriminate].
    apply Ascii.eqb_eq in E. intros H.
    destruct (IH s H) as [head [-> Hl]].
    exists (String c head). simpl. now rewrite E, Hl.
Qed.

Lemma skipLiteral_complete (head rest : string) :
  skipLiteral (toLowerCase head) (head ++ rest) = Some rest.
Proof.
  induction head as [|c head IH]; simpl; [reflexivity|].
  now rewrite Ascii.eqb_refl.
Qed.

Lemma skipLiteral_unit (p : ascii) (literal : string) (c : ascii) (s : string) :
  lowerUnit c = p ->
  skipLiteral (String p literal) (String c s) = skipLiteral literal s.
Proof. intros <-. simpl. now rewrite Ascii.eqb_refl. Qed.

Lemma skipLiteral_other (p : ascii) (literal : string) (c : ascii) (s : string) :
  lowerUnit c <> p -> skipLiteral (String p literal) (String c s) = None.
Proof.
  intros H. simpl. apply Ascii.eqb_neq in H. now rewrite H.
Qed.

Lemma lowerUnit_slash (c : ascii) : lowerUnit c = "/"%char -> c = "/"%char.
Proof.
  destruct c as [[] [] [] [] [] [] [] []]; intros H;
    first [reflexivity | discriminate H].
Qed.

Lemma nameRun_spec (s : string) :
  exists rest, s = (nameRun s ++ rest)%string
               /\ allNameUnits (nameRun s) = true /\ endsName rest = true.
Proof.
  induction s as [|c s IH]; simpl.
  - now exists ""%string.
  - destruct (isNameUnit c) eqn:E.
    + destruct IH as [rest [Hs [Hall Hend]]]. exists rest.
      split; [simpl; now rewrite <- Hs|]. split; [|exact Hend].
      unfold allNameUnits in *. simpl. now rewrite E, Hall.
    + exists (String c s). split; [reflexivity|]. split; [reflexivity|].
      simpl. now rewrite E.
Qed.

Lemma nameRun_of_name (name rest : string) :
  allNameUnits name = true -> endsName rest = true ->
  nameRun (name ++ rest) = name.
Proof.
  unfold allNameUnits. induction name as [|c name IH]; simpl; intros Hall Hend.
  - destruct rest as [|c rest]; [reflexivity|]. simpl in *.
    apply negb_true_iff in Hend. now rewrite Hend.
  - apply andb_true_iff in Hall as [Hc Hall]. rewrite Hc. now rewrite IH.
Qed.

Lemma slashThenName_sound (s name : string) :
  slashThenName s = Some name ->
  exists rest, s = ("/" ++ name ++ rest)%string
               /\ name <> ""%string /\ allNameUnits name = true
               /\ endsName rest = true.
Proof.
  unfold slashThenName.
  destruct (skipLiteral "/" s) as [s'|] eqn:E; [|discriminate].
  apply skipLiteral_sound in E as [head [-> Hl]].
  destruct head as [|c [|c' head]]; try discriminate Hl.
  simpl in Hl. injection Hl as Hl. apply lowerUnit_slash in Hl. subst c.
  destruct (nameRun_spec s') as [rest [Hs [Hall Hend]]].
  destruct (nameRun s') as [|c name'] eqn:En; [discriminate|].
  intros [= <-]. exists rest. split; [simpl; f_equal; exact Hs|].
  split; [discriminate|]. now split.
Qed.

Lemma slashThenName_complete (name rest : string) :
  name <> ""%string -> allNameUnits name = true -> endsName rest = true ->
  slashThenName ("/" ++ name ++ rest) = Some name.
Proof.
  intros Hne Hall Hend. unfold slashThenName. simpl.
  rewrite (nameRun_of_name name rest Hall Hend).
  destruct name; [contradiction | reflexivity].
Qed.

(** The pattern matches at the head of [s] with capture [name] exactly
    when [s] begins with a profile path for [name]. *)
Lemma matchHere_spec (s name : string) :
  matchHere s = Some name <-> profileAt s name.
Proof.
  unfold matchHere, profileAt. split.
  - destruct (skipLiteral "reddit.com/" s) as [s1|] eqn:E1; [|discriminate].
    apply skipLiteral_sound in E1 as [host [-> Hhost]].
    destruct (skipLiteral "u" s1) as [s2|] eqn:E2.
    + destruct (slashThenName s2) as [name'|] eqn:E3.
      * intros [= ->]. apply skipLiteral_sound in E2 as [kind [-> Hkind]].
        apply slashThenName_sound in E3 as [rest [-> [Hne [Hall Hend]]]].
        exists host, kind, rest. repeat split; auto.
      * destruct (skipLiteral "user" s1) as [s3|] eqn:E4; [|discriminate].
        intros E5. apply skipLiteral_sound in E4 as [kind [-> Hkind]].
        apply slashThenName_sound in E5 as [rest [-> [Hne [Hall Hend]]]].
        exists host, kind, rest. repeat split; auto.
    + destruct (skipLiteral "user" s1) as [s3|] eqn:E4; [|discriminate].
      intros E5. apply skipLiteral_sound in E4 as [kind [-> Hkind]].
      apply slashThenName_sound in E5 as [rest [-> [Hne [Hall Hend]]]].
      exists host, kind, rest. repeat split; auto.
  - intros [host [kind [rest [-> [Hhost [Hkind [Hne [Hall Hend]]]]]]]].
    rewrite <- Hhost, skipLiteral_complete.
    destruct Hkind as [Hkind|Hkind].
    + rewrite <- Hkind, skipLiteral_complete.
      now rewrite (slashThenName_complete name rest Hne Hall Hend).
    + destruct kind as [|k1 [|k2 [|k3 [|k4 [|k5 kind]]]]]; try discriminate Hkind.
      simpl in Hkind. injection Hkind as H1 H2 H3 H4.
      cbn [append].
      rewrite (skipLiteral_unit "u" "" k1 _ H1).
      rewrite (skipLiteral_unit "u" "ser" k1 _ H1), (skipLiteral_unit "s" "er" k2 _ H2),
        (skipLiteral_unit "e" "r" k3 _ H3), (skipLiteral_unit "r" "" k4 _ H4).
      cbn [skipLiteral].
      unfold slashThenName at 1.
      rewrite (skipLiteral_other "/" "" k2 _) by (rewrite H2; discriminate).
      exact (slashThenName_complete name rest Hne Hall Hend).
Qed.

Lemma extractUsername_step (c : ascii) (s : string) :
  matchHere (String c s) = None ->
  extractUsername (String c s) = extractUsername s.
Proof. intros H. simpl. now rewrite H. Qed.

(** The capture is the one of the leftmost position at which the pattern
    matches. *)
Lemma extractUsername_leftmost (url name : string) :
  extractUsername url = Some name ->
  exists before s,
    url = (before ++ s)%string /\ matchHere s = Some name
    /\ forall before' s', url = (before' ++ s')%string ->
                          String.length before' < String.length before ->
                          matchHere s' = None.
Proof.
  induction url as [|c url IH].
  - discriminate.
  - destruct (matchHere (String c url)) as [name'|] eqn:E.
    + simpl. rewrite E. intros [= ->]. exists ""%string, (String c url).
      split; [reflexivity|]. split; [exact E|].
      intros before' s' _ Hlt. simpl in Hlt. lia.
    + rewrite (extractUsername_step c url E). intros H.
      destruct (IH H) as [before [s [-> [Hm Hleft]]]].
      exists (String c before), s. split; [reflexivity|]. split; [exact Hm|].
      intros [|c' before'] s' Heq Hlt.
      * simpl in Heq. now subst s'.
      * simpl in Heq. injection Heq as _ Heq. simpl in Hlt.
        apply (Hleft before' s' Heq). lia.
Qed.

Lemma extractUsername_none (url : string) :
  extractUsername url = None <->
  forall before s, url = (before ++ s)%string -> matchHere s = None.
Proof.
  induction url as [|c url IH]; simpl.
  - split; [|reflexivity].
    intros _ [|c before] s Heq; [|discriminate Heq]. simpl in Heq. now subst.
  - destruct (matchHere (String c url)) as [name|] eqn:E; split.
    + discriminate.
    + intros H. specialize (H ""%string (String c url) eq_refl). congruence.
    + intros H [|c' before] s Heq.
      * simpl in Heq. now subst.
      * simpl in Heq. injection Heq as _ Heq.
        now apply (proj1 IH H before s).
    + intros H. apply IH. intros before s Heq.
      apply (H (String c before) s). simpl. now rewrite Heq.
Qed.

(** X7: a username that [extractUsername] returns is not empty and holds
    no '/', '?' or '#'; it is the name of a profile path "reddit.com/u/"
    or "reddit.com/user/" (in any letter case) that occurs in the URL, taken
    up to the end of the URL or the next '/', '?' or '#', and no profile
    path begins further left. *)
Theorem extractUsername_sound (url name : string)
    (H : extractUsername url = Some name) :
  name <> ""%string /\ allNameUnits name = true
  /\ exists before s,
       url = (before ++ s)%string /\ profileAt s name
       /\ forall before' s' name', url = (before' ++ s')%string ->
            profileAt s' name' ->
            String.length before <= String.length before'.
Proof.
  destruct (extractUsername_leftmost url name H) as [before [s [Hu [Hm Hleft]]]].
  apply matchHere_spec in Hm.
  assert (Hp := Hm).
  destruct Hp as [host [kind [rest [_ [_ [_ [Hne [Hall _]]]]]]]].
  split; [exact Hne|]. split; [exact Hall|].
  exists before, s. split; [exact Hu|]. split; [exact Hm|].
  intros before' s' name' Hu' Hp'.
  destruct (Nat.le_gt_cases (String.length before) (String.length before'))
    as [Hle|Hlt]; [exact Hle|].
  apply matchHere_spec in Hp'. rewrite (Hleft before' s' Hu' Hlt) in Hp'.
  discriminate Hp'.
Qed.

Lemma extractUsername_sound_witness :
  extractUsername "https://old.reddit.com/U/Hungry-Move-6603?sort=new"
  = Some "Hungry-Move-6603"%string
  /\ allNameUnits "Hungry-Move-6603" = true.
Proof.
  split; [reflexivity|].
  exact (proj1 (proj2 (extractUsername_sound
                         "https://old.reddit.com/U/Hungry-Move-6603?sort=new"
                         "Hungry-Move-6603" eq_refl))).
Defined.

(** X8: [extractUsername] returns null exactly when no profile path
    "reddit.com/u/<name>" or "reddit.com/user/<name>" with a non-empty name
    occurs anywhere in the URL. *)
Theorem extractUsername_null_iff_no_profile (url : string) :
  extractUsername url = None
  <-> forall before s name, url = (before ++ s)%string -> ~ profileAt s name.
Proof.
  rewrite extractUsername_none. split.
  - intros H before s name Hu Hp. apply matchHere_spec in Hp.
    rewrite (H before s Hu) in Hp. discriminate Hp.
  - intros H before s Hu. destruct (matchHere s) as [name|] eqn:E; [|reflexivity].
    apply matchHere_spec in E. now elim (H before s name Hu).
Qed.

Lemma extractUsername_here (s name : string) :
  matchHere s = Some name -> extractUsername s = Some name.
Proof.
  intros H. destruct s as [|c s]; [discriminate H|].
  cbn [extractUsername]. now rewrite H.
Qed.

Lemma profile_path_matches (kind name rest : string) :
  kind = "u"%string \/ kind = "user"%string ->
  name <> ""%string -> allNameUnits name = true -> endsName rest = true ->
  matchHere ("reddit.com/" ++ kind ++ "/" ++ name ++ rest) = Some name.
Proof.
  intros Hk Hne Hall Hend. apply matchHere_spec.
  exists "reddit.com/"%string, kind, rest.
  split; [reflexivity|]. split; [reflexivity|].
  split; [destruct Hk as [-> | ->]; [now left | now right]|].
  now repeat split.
Qed.

(** X9: a profile address in either of the two usual forms gives back its
    user name: for a non-empty [name] without '/', '?' or '#', followed by
    nothing or by one of these three, both
    "https://www.reddit.com/user/<name>..." and
    "https://www.reddit.com/u/<name>..." yield [name]; so do the two
    listing addresses that [fetchRedditData] builds for [name]. *)
Theorem extractUsername_of_profile_url (name rest : string)
    (Hne : name <> ""%string) (Hall : allNameUnits name = true)
    (Hend : endsName rest = true) :
  extractUsername ("https://www.reddit.com/user/" ++ name ++ rest) = Some name
  /\ extractUsername ("https://www.reddit.com/u/" ++ name ++ rest) = Some name
  /\ extractUsername (submittedUrl name) = Some name
  /\ extractUsername (commentsUrl name) = Some name.
Proof.
  assert (Hgen : forall kind rest', kind = "u"%string \/ kind = "user"%string ->
            endsName rest' = true ->
            extractUsername ("https://www." ++ "reddit.com/" ++ kind ++ "/"
                             ++ name ++ rest') = Some name).
  { intros kind rest' Hk Hend'. cbn [append].
    rewrite !extractUsername_step by reflexivity.
    apply extractUsername_here.
    exact (profile_path_matches kind name rest' Hk Hne Hall Hend'). }
  split; [exact (Hgen "user"%string rest (or_intror eq_refl) Hend)|].
  split; [exact (Hgen "u"%string rest (or_introl eq_refl) Hend)|].
  split.
  - exact (Hgen "user"%string "/submitted.json?limit=50"%string
                (or_intror eq_refl) eq_refl).
  - exact (Hgen "user"%string "/comments.json?limit=50"%string
                (or_intror eq_refl) eq_refl).
Qed.

Lemma extractUsername_of_profile_url_witness :
  extractUsername "https://www.reddit.com/user/kojied/" = Some "kojied"%string
  /\ extractUsername "https://www.reddit.com/u/kojied/" = Some "kojied"%string.
Proof.
  destruct (extractUsername_of_profile_url "kojied" "/")
    as [H1 [H2 _]]; [discriminate | reflexivity | reflexivity |].
  split; [exact H1 | exact H2].
Defined.

(* ================================================================== *)
(** ** Properties of the two routes                                     *)
(* ================================================================== *)

Lemma generatePersona_username (u : string) (data : RedditData) (r : PersonaResult) :
  generatePersona u data = Returns r -> username r = u.
Proof.
  intros H. destruct (allContent data) eqn:E.
  - rewrite (generatePersona_empty u data E) in H. now injection H as <-.
  - destruct (hasOrigins data) eqn:Hs.
    + rewrite (generatePersona_active u data) in H;
        [now injection H as <- | rewrite E; discriminate | exact Hs].
    + rewrite (generatePersona_throws u data Hs) in H. discriminate H.
Qed.

Lemma fetchRedditData_listings (host : Host) (u : string) (data : RedditData) :
  fetchRedditData host u = inl data ->
  axiosGet host (submittedUrl u) = Listing (posts data)
  /\ axiosGet host (commentsUrl u) = Listing (comments data).
Proof.
  unfold fetchRedditData.
  destruct (axiosGet host (submittedUrl u)) as [m|m|ps];
    destruct (axiosGet host (commentsUrl u)) as [m'|m'|cs]; try discriminate.
  intros [= <-]. now split.
Qed.

(** What a 200 answer tells about the run of the route. *)
Lemma postPersona_200 (host : Host) (files files' : Files) (redditUrl : jsopt string)
    (persona : PersonaResult) (filename downloadUrl : string) :
  postPersona host files redditUrl = (Status200 persona filename downloadUrl, files') ->
  exists u data,
    truthyField redditUrl = true
    /\ extractUsername (fieldToString redditUrl) = Some u
    /\ fetchRedditData host u = inl data
    /\ generatePersona u data = Returns persona
    /\ filename = reportFilename u (dateNow host)
    /\ downloadUrl = ("/api/download/" ++ filename)%string
    /\ files' = writeFile files (joinGenerated host filename)
                          (formatPersonaAsText (isoNow host) persona).
Proof.
  unfold postPersona.
  destruct (truthyField redditUrl); cbn [negb]; [|discriminate].
  destruct (extractUsername (fieldToString redditUrl)) as [u|]; [|discriminate].
  destruct (fetchRedditData host u) as [data|m] eqn:Ef; [|discriminate].
  destruct (generatePersona u data) as [p|e] eqn:Eg; [|discriminate].
  cbv zeta.
  destruct (diskError host (joinGenerated host (reportFilename u (dateNow host))));
    [discriminate|].
  intros [= <- <- <- <-]. exists u, data. repeat split; auto.
Qed.









Lemma sample_request_answered :
  postPersona sampleHost [] (val "https://www.reddit.com/user/kojied/")
  = (Status200 (activePersona "kojied" fourTechComments)
               "persona_kojied_1752485400000.txt"
               "/api/download/persona_kojied_1752485400000.txt",
     [("/srv/app/generated/persona_kojied_1752485400000.txt"%string,
       formatPersonaAsText "2025-07-14T09:30:00.000Z"
                           (activePersona "kojied" fourTechComments))]).
Proof. vm_compute. reflexivity. Defined.


(** A profile URL whose user name runs over a line break: the request is
    answered with 200 and the report is written, and the download of the
    file it names is answered with 404. *)
Example report_under_a_two_line_name :
  exists persona files',
    postPersona sampleHost [] (val ("https://www.reddit.com/user/" ++ twoLineName)%string)
    = (Status200 persona (reportFilename twoLineName (dateNow sampleHost))
                 ("/api/download/"
                  ++ reportFilename twoLineName (dateNow sampleHost))%string,
       files')
    /\ readFile files'
         (joinGenerated sampleHost (reportFilename twoLineName (dateNow sampleHost)))
       = Some (formatPersonaAsText (isoNow sampleHost) persona)
    /\ getDownload sampleHost files'
         (reportFilename twoLineName (dateNow sampleHost))
       = Status404 "File not found".
Proof.
  eexists. eexists. split; [vm_compute; reflexivity|].
  split; vm_compute; reflexivity.
Qed.

Lemma allNameUnits_append (a b : string) :
  allNameUnits (a ++ b) = allNameUnits a && allNameUnits b.
Proof.
  unfold allNameUnits. induction a as [|c a IH]; simpl; [reflexivity|].
  now rewrite IH, andb_assoc.
Qed.

Lemma decimal_digits_are_name_units (d : Decimal.uint) :
  allNameUnits (NilEmpty.string_of_uint d) = true.
Proof.
  induction d; simpl; try reflexivity; exact IHd.
Qed.

Lemma integerToString_name_units (z : Z) : allNameUnits (integerToString z) = true.
Proof.
  unfold integerToString, decimalOfZ.
  destruct (z <? 0)%Z; [rewrite allNameUnits_append|];
    now rewrite decimal_digits_are_name_units.
Qed.

(** X12: a 200 answer belongs to the user named in the request: the
    persona carries the user name that [extractUsername] read from the
    body and is the analysis of the two listings Reddit returned for that
    name; the file is called persona_<username>_<Date.now()>.txt, a name
    without '/', '?' or '#'. *)
Theorem answer_belongs_to_requested_user (host : Host) (files files' : Files)
    (redditUrl : jsopt string) (persona : PersonaResult)
    (filename downloadUrl : string)
    (H : postPersona host files redditUrl
         = (Status200 persona filename downloadUrl, files')) :
  exists u posts comments,
    extractUsername (fieldToString redditUrl) = Some u
    /\ username persona = u
    /\ axiosGet host (submittedUrl u) = Listing posts
    /\ axiosGet host (commentsUrl u) = Listing comments
    /\ generatePersona u {| posts := posts; comments := comments |} = Returns persona
    /\ filename = ("persona_" ++ u ++ "_" ++ integerToString (dateNow host) ++ ".txt")%string
    /\ allNameUnits filename = true.
Proof.
  destruct (postPersona_200 _ _ _ _ _ _ _ H)
    as [u [data [_ [Hu [Hf [Hg [Hn _]]]]]]].
  destruct (fetchRedditData_listings host u data Hf) as [Hp Hc].
  exists u, (posts data), (comments data).
  split; [exact Hu|]. split; [exact (generatePersona_username u data persona Hg)|].
  split; [exact Hp|]. split; [exact Hc|].
  split; [destruct data; exact Hg|]. split; [exact Hn|].
  subst filename. unfold reportFilename.
  destruct (extractUsername_leftmost _ _ Hu) as [before [s [_ [Hm _]]]].
  apply matchHere_spec in Hm.
  destruct Hm as [host' [kind [rest [_ [_ [_ [_ [Hall _]]]]]]]].
  rewrite !allNameUnits_append, Hall, integerToString_name_units. reflexivity.
Qed.

Lemma answer_belongs_to_requested_user_witness :
  username (activePersona "kojied" fourTechComments) = "kojied"%string
  /\ allNameUnits "persona_kojied_1752485400000.txt" = true.
Proof.
  destruct (answer_belongs_to_requested_user sampleHost [] _ _ _ _ _
              sample_request_answered)
    as [u [ps [cs [Hu [Hn [_ [_ [_ [_ Hall]]]]]]]]].
  split; [reflexivity | exact Hall].
Defined.

(* ================================================================== *)
(** ** The engine and the renderer together                             *)
(* ================================================================== *)

(** X13: in the report of what [generatePersona] returns, the "Most
    Active Subreddits:" line is there exactly when the input has an item;
    the TOP INTERESTS section exactly when some item has an origin other
    than [__proto__]; the PERSONALITY TRAITS section exactly when some
    rule's threshold is exceeded. *)
Theorem report_sections_of_an_input (u : string) (data : RedditData)
    (Hs : hasOrigins data = true) :
  exists r,
    generatePersona u data = Returns r
    /\ (mostActiveLine r = ""%string <-> allContent data = [])
    /\ (interestsSection r = ""%string <-> countedOrigins data = [])
    /\ (traitsSection r = ""%string
        <-> forall rule, In rule ruleCatalog ->
                         matchCount rule data <= threshold rule).
Proof.
  destruct (allContent data) eqn:E.
  - exists (emptyPersona u). split; [now apply generatePersona_empty|].
    split; [split; reflexivity|]. split.
    + split; [|reflexivity]. intros _. unfold countedOrigins, origins.
      now rewrite E.
    + split; [|reflexivity]. intros _ rule Hr.
      unfold allContent in E. apply app_eq_nil in E as [Hp Hc].
      unfold ruleCatalog in Hr. simpl in Hr.
      destruct Hr as [<-|[<-|[<-|[<-|[]]]]];
        unfold matchCount, matching; simpl; unfold allContent;
        rewrite ?Hp, ?Hc; simpl; lia.
  - exists (activePersona u data). split.
    { apply generatePersona_active; [|exact Hs]. rewrite E. discriminate. }
    split; [split; discriminate|]. split.
    + unfold interestsSection. cbn [interests activePersona].
      rewrite <- (length_zero_iff_nil (countedOrigins data)), <- ranking_length.
      destruct (ranking data) as [|e1 [|e2 more]]; simpl; split;
        first [reflexivity | discriminate].
    + unfold traitsSection. cbn [traits activePersona].
      destruct (traitsByCatalog data) as [|t ts] eqn:Et.
      * split; [|reflexivity]. intros _ rule Hr.
        destruct (Nat.le_gt_cases (matchCount rule data) (threshold rule))
          as [Hle|Hgt]; [exact Hle|].
        apply (label_detected data rule Hr) in Hgt. rewrite Et in Hgt. contradiction.
      * split; [discriminate|]. intros Hall. exfalso.
        assert (Ht : In t (traitsByCatalog data)) by (rewrite Et; now left).
        unfold traitsByCatalog in Ht. apply in_flat_map in Ht as [rule [Hr Hd]].
        apply detect_In in Hd as [Hgt _]. specialize (Hall rule Hr). lia.
Qed.

Lemma report_sections_of_an_input_witness :
  hasOrigins onlyProto = true
  /\ exists r,
       generatePersona "kojied" onlyProto = Returns r
       /\ mostActiveLine r <> ""%string
       /\ interestsSection r = ""%string.
Proof.
  split; [reflexivity|].
  destruct (report_sections_of_an_input "kojied" onlyProto eq_refl)
    as [r [Hr [Hm [Hi _]]]].
  exists r. split; [exact Hr|]. split.
  - intros H. apply Hm in H. discriminate H.
  - apply Hi. reflexivity.
Defined.

(** X14: every detected trait cites exactly two pieces of evidence, built
    in order from the first two qualifying items of its rule: each bears
    the subreddit of its item and, for the first three rules, the kind
    "post" when the item has a non-empty title and "comment" otherwise;
    for Thoughtful Communicator the kind is always "comment". *)
Theorem evidence_comes_in_pairs (u : string) (data : RedditData)
    (Hs : hasOrigins data = true) :
  exists r,
    generatePersona u data = Returns r /\
    forall t rule, In t (traits r) -> In rule ruleCatalog -> trait t = label rule ->
      length (evidence t) = 2
      /\ Forall2
           (fun item e =>
              Evidence.subreddit e = subreddit item
              /\ Evidence.type e
                 = (if (label rule =? "Thoughtful Communicator")%string
                    then "comment"%string
                    else if truthyField (title item) then "post"%string
                         else "comment"%string))
           (firstn 2 (matching rule data)) (evidence t).
Proof.
  destruct (traits_of_result u data Hs) as [r [Hr Ht]].
  exists r. split; [exact Hr|]. rewrite Ht.
  intros t rule Hin Hrule Hl.
  apply (trait_of_rule data rule t Hrule Hin) in Hl.
  apply detect_In in Hl as [Hgt ->]. cbn [evidence]. split.
  - rewrite length_map, length_firstn. unfold matchCount in Hgt.
    unfold ruleCatalog in Hrule. simpl in Hrule.
    destruct Hrule as [<-|[<-|[<-|[<-|[]]]]]; simpl in Hgt; lia.
  - apply Forall2_map_r. intros item _. unfold evidenceOf.
    cbn [Evidence.subreddit Evidence.type]. split; [reflexivity|].
    unfold ruleCatalog in Hrule. simpl in Hrule.
    destruct Hrule as [<-|[<-|[<-|[<-|[]]]]]; reflexivity.
Qed.

Lemma evidence_comes_in_pairs_witness :
  hasOrigins sixLongComments = true
  /\ exists r,
       generatePersona "kojied" sixLongComments = Returns r
       /\ forall t, In t (traits r) -> trait t = "Thoughtful Communicator"%string ->
                    length (evidence t) = 2.
Proof.
  split; [reflexivity|].
  destruct (evidence_comes_in_pairs "kojied" sixLongComments eq_refl) as [r [Hr H]].
  exists r. split; [exact Hr|].
  intros t Hin Hl.
  destruct (H t thoughtfulRule Hin) as [Hlen _]; [simpl; auto | exact Hl | exact Hlen].
Defined.
